(** * Slugify Heading as Filename: the plugin's core, embedded and verified

  A shallow embedding of [src/main.ts] (class [FilenameSlugHeadingSyncPlugin]).

  - JavaScript strings are sequences of UTF-16 code units: [list N].
  - The two built-ins whose result depends on the Unicode character
    database, [String.prototype.normalize] and
    [String.prototype.toLowerCase], are an interface ([Unicode]); the
    facts of the database the proofs rely on are its laws
    ([UnicodeLaws]); [latin1] is an instance computed from the
    database rows of Basic Latin and Latin-1 Supplement.
  - [RegExp] on the user's pattern is an interface too ([RegExpEngine]).
  - The plugin object, the vault and the promise returned by
    [renameFile] are explicit state passing with a log of the calls
    made to the host. *)

From Stdlib Require Import NArith Ascii String List Bool Lia.
From stdpp Require Import base option list gmap.

(** ** JavaScript strings *)

Abbreviation code_unit := N (only parsing).
Abbreviation jsstring := (list N) (only parsing).

Section Strings.

Local Open Scope N_scope.

(** An ASCII literal as a sequence of code units. *)
Fixpoint lit (s : string) : jsstring :=
  match s with
  | EmptyString => []
  | String a s' => N_of_ascii a :: lit s'
  end.

(** [s.startsWith(p)] *)
Fixpoint startsWith (s p : jsstring) : bool :=
  match p, s with
  | [], _ => true
  | _ :: _, [] => false
  | a :: p', c :: s' => (c =? a) && startsWith s' p'
  end.

(** [s.substring(n)] for [n >= 0]: the code units from index [n] on
    (the empty string when [n] is past the end). *)
Definition substring (s : jsstring) (n : nat) : jsstring := drop n s.

(** [s.split(sep)] for a one-unit separator: never the empty array. *)
Fixpoint split (sep : code_unit) (s : jsstring) : list jsstring :=
  match s with
  | [] => [[]]
  | c :: s' =>
      if c =? sep then [] :: split sep s'
      else match split sep s' with
           | [] => [[c]]
           | l :: ls => (c :: l) :: ls
           end
  end.

(** ECMAScript WhiteSpace and LineTerminator code points: what [trim]
    removes and what [\s] matches. *)
Definition isWhiteSpace (c : code_unit) : bool :=
  ((0x09 <=? c) && (c <=? 0x0D))
  || (c =? 0x20) || (c =? 0xA0) || (c =? 0x1680)
  || ((0x2000 <=? c) && (c <=? 0x200A))
  || (c =? 0x2028) || (c =? 0x2029) || (c =? 0x202F)
  || (c =? 0x205F) || (c =? 0x3000) || (c =? 0xFEFF).

Fixpoint dropWhile (p : code_unit -> bool) (s : jsstring) : jsstring :=
  match s with
  | [] => []
  | c :: s' => if p c then dropWhile p s' else s
  end.

Definition trimStart (s : jsstring) : jsstring := dropWhile isWhiteSpace s.
Definition trimEnd (s : jsstring) : jsstring :=
  rev (dropWhile isWhiteSpace (rev s)).
(** [s.trim()] *)
Definition trim (s : jsstring) : jsstring := trimEnd (trimStart s).

(** [s.replace(/[cls]/g, r)]: each code unit of the class is a match. *)
Fixpoint replace_class (cls : code_unit -> bool) (r s : jsstring) : jsstring :=
  match s with
  | [] => []
  | c :: s' =>
      if cls c then r ++ replace_class cls r s'
      else c :: replace_class cls r s'
  end.

(** [s.replace(/[cls]+/g, r)]: each maximal run of the class is one
    match. [in_run] tells that the scan is inside a match whose
    replacement is already written. *)
Fixpoint replace_runs_from (in_run : bool) (cls : code_unit -> bool)
    (r s : jsstring) : jsstring :=
  match s with
  | [] => []
  | c :: s' =>
      if cls c
      then (if in_run then [] else r) ++ replace_runs_from true cls r s'
      else c :: replace_runs_from false cls r s'
  end.

Definition replace_runs := replace_runs_from false.

(** [s.match(/^=+$/) !== null]: without the [m] flag [^] and [$] are the
    two ends of the input, so the match is
    one or more [=] and nothing else. *)
Definition is_equals_run (s : jsstring) : bool :=
  match s with
  | [] => false
  | _ :: _ => forallb (fun c => c =? 0x3D) s
  end.

(** The character classes of [slugify]'s regular expressions. *)
Definition is_combining_mark (c : code_unit) : bool :=
  (0x0300 <=? c) && (c <=? 0x036F).
Definition is_lower (c : code_unit) : bool := (0x61 <=? c) && (c <=? 0x7A).
Definition is_upper (c : code_unit) : bool := (0x41 <=? c) && (c <=? 0x5A).
Definition is_digit (c : code_unit) : bool := (0x30 <=? c) && (c <=? 0x39).
Definition is_space (c : code_unit) : bool := c =? 0x20.
Definition is_hyphen (c : code_unit) : bool := c =? 0x2D.
(** [[^a-z0-9 -]] *)
Definition not_slug_char (c : code_unit) : bool :=
  negb (is_lower c || is_digit c || is_space c || is_hyphen c).

Definition is_ascii (c : code_unit) : bool := c <? 0x80.
(** What [toLowerCase] does to a Basic Latin code unit. *)
Definition ascii_lower (c : code_unit) : code_unit :=
  if is_upper c then c + 0x20 else c.

End Strings.

(** ** The Unicode-dependent built-ins *)

(** The forms of [normalize] the code and its specification name. *)
Inductive NormalizationForm := NFD | NFKD.

(** The Unicode-dependent built-ins. *)
Class Unicode := {
  normalize : NormalizationForm -> jsstring -> jsstring;
  toLowerCase : jsstring -> jsstring
}.

(** Facts of the Unicode character database: Basic Latin has no
    decomposition, lowercasing Basic Latin touches [A-Z] only, and no
    lowercase mapping produces a letter of [A-Z]. *)
Class UnicodeLaws (U : Unicode) : Prop := {
  normalize_ascii : forall f s,
    forallb is_ascii s = true -> normalize f s = s;
  toLowerCase_ascii : forall s,
    forallb is_ascii s = true -> toLowerCase s = map ascii_lower s;
  toLowerCase_no_upper : forall s,
    forallb (fun c => negb (is_upper c)) (toLowerCase s) = true
}.

(** ** [slugify] (src/main.ts, lines 211-220) *)

Section Slugify.

Context {U : Unicode}.

Definition slugify (text : jsstring) : jsstring :=
  let s := normalize NFKD text in
  let s := replace_class is_combining_mark [] s in
  let s := trim s in
  let s := toLowerCase s in
  let s := replace_class not_slug_char [] s in
  let s := replace_runs isWhiteSpace (lit "-") s in
  replace_runs is_hyphen (lit "-") s.

End Slugify.

(** ** The Unicode instance of Basic Latin and Latin-1 Supplement

    The rows of UnicodeData.txt for U+0000-U+00FF: the decomposition
    mappings (tagged [true] when the mapping is a compatibility one) and
    the simple lowercase mappings. Every mapping of this range is fully
    decomposed and has at most one combining mark, after a starter, so
    that on a string of this range decomposing unit by unit is the whole
    of normalization. A code unit outside the range is left as it is,
    which is what the database says of U+2014 and of the combining marks
    U+0300-U+036F, the only such units the examples below use. *)

Section Latin1.

Local Open Scope N_scope.

Definition latin1_decomposition : list (code_unit * (bool * jsstring)) :=
  [ (0xA0, (true, [0x20])); (0xA8, (true, [0x20; 0x0308]));
    (0xAA, (true, [0x61])); (0xAF, (true, [0x20; 0x0304]));
    (0xB2, (true, [0x32])); (0xB3, (true, [0x33]));
    (0xB4, (true, [0x20; 0x0301])); (0xB5, (true, [0x03BC]));
    (0xB8, (true, [0x20; 0x0327])); (0xB9, (true, [0x31]));
    (0xBA, (true, [0x6F])); (0xBC, (true, [0x31; 0x2044; 0x34]));
    (0xBD, (true, [0x31; 0x2044; 0x32]));
    (0xBE, (true, [0x33; 0x2044; 0x34])); (0xC0, (false, [0x41; 0x0300]));
    (0xC1, (false, [0x41; 0x0301])); (0xC2, (false, [0x41; 0x0302]));
    (0xC3, (false, [0x41; 0x0303])); (0xC4, (false, [0x41; 0x0308]));
    (0xC5, (false, [0x41; 0x030A])); (0xC7, (false, [0x43; 0x0327]));
    (0xC8, (false, [0x45; 0x0300])); (0xC9, (false, [0x45; 0x0301]));
    (0xCA, (false, [0x45; 0x0302])); (0xCB, (false, [0x45; 0x0308]));
    (0xCC, (false, [0x49; 0x0300])); (0xCD, (false, [0x49; 0x0301]));
    (0xCE, (false, [0x49; 0x0302])); (0xCF, (false, [0x49; 0x0308]));
    (0xD1, (false, [0x4E; 0x0303])); (0xD2, (false, [0x4F; 0x0300]));
    (0xD3, (false, [0x4F; 0x0301])); (0xD4, (false, [0x4F; 0x0302]));
    (0xD5, (false, [0x4F; 0x0303])); (0xD6, (false, [0x4F; 0x0308]));
    (0xD9, (false, [0x55; 0x0300])); (0xDA, (false, [0x55; 0x0301]));
    (0xDB, (false, [0x55; 0x0302])); (0xDC, (false, [0x55; 0x0308]));
    (0xDD, (false, [0x59; 0x0301])); (0xE0, (false, [0x61; 0x0300]));
    (0xE1, (false, [0x61; 0x0301])); (0xE2, (false, [0x61; 0x0302]));
    (0xE3, (false, [0x61; 0x0303])); (0xE4, (false, [0x61; 0x0308]));
    (0xE5, (false, [0x61; 0x030A])); (0xE7, (false, [0x63; 0x0327]));
    (0xE8, (false, [0x65; 0x0300])); (0xE9, (false, [0x65; 0x0301]));
    (0xEA, (false, [0x65; 0x0302])); (0xEB, (false, [0x65; 0x0308]));
    (0xEC, (false, [0x69; 0x0300])); (0xED, (false, [0x69; 0x0301]));
    (0xEE, (false, [0x69; 0x0302])); (0xEF, (false, [0x69; 0x0308]));
    (0xF1, (false, [0x6E; 0x0303])); (0xF2, (false, [0x6F; 0x0300]));
    (0xF3, (false, [0x6F; 0x0301])); (0xF4, (false, [0x6F; 0x0302]));
    (0xF5, (false, [0x6F; 0x0303])); (0xF6, (false, [0x6F; 0x0308]));
    (0xF9, (false, [0x75; 0x0300])); (0xFA, (false, [0x75; 0x0301]));
    (0xFB, (false, [0x75; 0x0302])); (0xFC, (false, [0x75; 0x0308]));
    (0xFD, (false, [0x79; 0x0301])); (0xFF, (false, [0x79; 0x0308])) ].

Fixpoint lookup_row {A} (c : code_unit) (t : list (code_unit * A)) : option A :=
  match t with
  | [] => None
  | (k, v) :: t' => if c =? k then Some v else lookup_row c t'
  end.

Definition latin1_decompose (f : NormalizationForm) (c : code_unit) : jsstring :=
  match lookup_row c latin1_decomposition with
  | Some (compat, mapping) =>
      match f with
      | NFKD => mapping
      | NFD => if compat then [c] else mapping
      end
  | None => [c]
  end.

Definition latin1_lower (c : code_unit) : code_unit :=
  if is_upper c then c + 0x20
  else if (0xC0 <=? c) && (c <=? 0xDE) && negb (c =? 0xD7) then c + 0x20
  else c.

Definition latin1 : Unicode := {|
  normalize f s := flat_map (latin1_decompose f) s;
  toLowerCase s := map latin1_lower s
|}.

End Latin1.

(** ** Heading extraction (src/main.ts, lines 162-206) *)

Inductive HeadingStyle := Prefix | Underline.

Record LinePointer := {
  lineNumber : nat;
  text : jsstring;
  style : HeadingStyle
}.

(** The [for] loop of [findNoteStart]: [n] is the number of iterations
    left, [fileLines.length - i]. *)
Fixpoint findNoteStart_loop (n : nat) (fileLines : list jsstring) (i : nat) : nat :=
  match n with
  | O => 0
  | S n' =>
      if bool_decide (fileLines !! i = Some (lit "---")) then i + 1
      else findNoteStart_loop n' fileLines (i + 1)
  end.

Definition findNoteStart (fileLines : list jsstring) : nat :=
  if bool_decide (fileLines !! 0 = Some (lit "---"))
  then findNoteStart_loop (length fileLines - 1) fileLines 1
  else 0.

(** The [for] loop of [findHeading]; [fileLines[i]] is defined at every
    iteration, [fileLines[i + 1]] is [undefined] at the last one. *)
Fixpoint findHeading_loop (n : nat) (fileLines : list jsstring) (i : nat)
    : option LinePointer :=
  match n with
  | O => None
  | S n' =>
      match fileLines !! i with
      | None => None
      | Some line =>
          if startsWith line (lit "# ")
          then Some {| lineNumber := i; text := substring line 2; style := Prefix |}
          else
            match fileLines !! (i + 1) with
            | Some next =>
                if is_equals_run next
                then Some {| lineNumber := i; text := line; style := Underline |}
                else findHeading_loop n' fileLines (i + 1)
            | None => findHeading_loop n' fileLines (i + 1)
            end
      end
  end.

Definition findHeading (fileLines : list jsstring) (startLine : nat)
    : option LinePointer :=
  findHeading_loop (length fileLines - startLine) fileLines startLine.

(** ** Host objects *)

(** A [TFile] of the vault. The vault keeps one object per file, so that
    [!==] on two of them is decided on the fields. *)
Record TFile := {
  path : jsstring;
  basename : jsstring;
  extension : jsstring;
  parent_path : jsstring  (* [file.parent.path] *)
}.

#[export] Instance TFile_eq_dec : EqDecision TFile.
Proof. solve_decision. Defined.

(** [TAbstractFile]: a file or a folder. *)
Inductive TAbstractFile :=
| AFile (file : TFile)
| AFolder (folder_path : jsstring).

Record FilenameSlugHeadingSyncPluginSettings := {
  includeRegex : jsstring;
  includedFiles : gmap (list N) unit;  (* [{ [key: string]: null }] *)
  useFileOpenHook : bool;
  useFileSaveHook : bool
}.

Definition DEFAULT_SETTINGS : FilenameSlugHeadingSyncPluginSettings := {|
  includedFiles := ∅;
  includeRegex := [];
  useFileOpenHook := true;
  useFileSaveHook := true
|}.

(** The plugin object: its two fields. *)
Record Plugin := {
  isRenameInProgress : bool;
  settings : FilenameSlugHeadingSyncPluginSettings
}.

(** What the host answers during one evaluation. [isExcluded] is the
    function imported from [./exclusions], applied to [this.app]; its
    source is not part of this development and it is taken as it comes.
    A promise that rejects is [None] for [read] and [false] for
    [renameFile]. *)
Record App := {
  isExcluded : TFile -> bool;
  getActiveFile : option TFile;
  vault_read : TFile -> option jsstring;
  renameFile_fulfils : TFile -> jsstring -> bool
}.

(** [new RegExp(pattern)] and [reg.exec(s) !== null]. The constructor
    throws a SyntaxError on an invalid pattern: [None]. *)
Class RegExpEngine := {
  RegExp : Type;
  new_RegExp : jsstring -> option RegExp;
  exec_matches : RegExp -> jsstring -> bool
}.

(** ** [fileIsIncluded] (src/main.ts, lines 82-104) *)

(** The values [fileIsIncluded] returns. *)
Inductive jsvalue := JBool (b : bool) | JUndefined.

Definition truthy (v : jsvalue) : bool :=
  match v with JBool b => b | JUndefined => false end.

(** How a block ends: by a [return] or by an exception. *)
Inductive completion (A : Type) := Returned (v : A) | Thrown.
Arguments Returned {A} v.
Arguments Thrown {A}.

(** The property names every object literal inherits from
    [Object.prototype]: [o[k]] is defined for them also when [k] is not a
    key of [o]. *)
Definition Object_prototype_keys : list jsstring :=
  map lit ["constructor"; "__defineGetter__"; "__defineSetter__";
           "hasOwnProperty"; "__lookupGetter__"; "__lookupSetter__";
           "isPrototypeOf"; "propertyIsEnumerable"; "toString"; "valueOf";
           "__proto__"; "toLocaleString"]%string.

(** [o[k] !== undefined] for [o : { [key: string]: null }]: the stored
    value [null] is not [undefined]. *)
Definition get_is_defined (o : gmap (list N) unit) (k : jsstring) : bool :=
  bool_decide (is_Some (o !! k)) || bool_decide (k ∈ Object_prototype_keys).

Section Inclusion.

Context {E : RegExpEngine}.

(** The body of the [try] block: both of its paths return. *)
Definition fileIsIncluded_try (s : FilenameSlugHeadingSyncPluginSettings)
    (path : jsstring) : completion jsvalue :=
  if bool_decide (includeRegex s = []) then Returned JUndefined
  else
    match new_RegExp (includeRegex s) with
    | None => Thrown
    | Some reg => Returned (JBool (exec_matches reg path))
    end.

Definition fileIsIncluded (app : App) (this : Plugin) (activeFile : TFile)
    (path : jsstring) : completion jsvalue :=
  if isExcluded app activeFile then Returned (JBool true)
  else if get_is_defined (includedFiles (settings this)) path
  then Returned (JBool true)
  else
    match fileIsIncluded_try (settings this) path with
    | Returned v => Returned v
    | Thrown => (* [catch {}] *) Returned (JBool false)
    end.

End Inclusion.

(** ** The controller (src/main.ts, lines 46-52 and 111-154) *)

(** What an evaluation does that the host or a later evaluation can see. *)
Inductive Event :=
| EvRead (file : TFile)
| EvAssignInProgress (b : bool)
| EvRenameFile (file : TFile) (newPath : jsstring) (fulfilled : bool).

(** An evaluation from a state of the plugin object: its value ([None]
    when an exception or a rejected promise ended it), the plugin object
    it leaves and its events in order. *)
Record Run (A : Type) := {
  value : option A;
  final : Plugin;
  events : list Event
}.
Arguments value {A} _.
Arguments final {A} _.
Arguments events {A} _.

Definition Async (A : Type) : Type := Plugin -> Run A.

#[export] Instance Async_ret : MRet Async := fun A (a : A) this =>
  {| value := Some a; final := this; events := [] |}.

(** Sequencing stops at the statement that throws. *)
#[export] Instance Async_bind : MBind Async :=
  fun A B (k : A -> Async B) (m : Async A) this =>
    let r := m this in
    match value r with
    | None => {| value := None; final := final r; events := events r |}
    | Some a =>
        let r' := k a (final r) in
        {| value := value r'; final := final r';
           events := events r ++ events r' |}
    end.

(** [this.isRenameInProgress = b] *)
Definition assign_isRenameInProgress (b : bool) : Async unit :=
  fun this =>
    {| value := Some tt;
       final := {| isRenameInProgress := b; settings := settings this |};
       events := [EvAssignInProgress b] |}.

(** [await this.app.vault.read(file)] *)
Definition await_read (app : App) (file : TFile) : Async jsstring :=
  fun this =>
    {| value := vault_read app file; final := this; events := [EvRead file] |}.

(** [await this.app.fileManager.renameFile(file, newPath)] *)
Definition await_renameFile (app : App) (file : TFile) (newPath : jsstring)
    : Async unit :=
  fun this =>
    let ok := renameFile_fulfils app file newPath in
    {| value := if ok then Some tt else None;
       final := this;
       events := [EvRenameFile file newPath ok] |}.

Section Controller.

Context {U : Unicode} {E : RegExpEngine}.

Definition forceRenameFile (app : App) (file : TFile) : Async unit :=
  data ← await_read app file;
  let lines := split 0x0A%N data in
  let start := findNoteStart lines in
  match findHeading lines start with
  | None => mret tt
  | Some heading =>
      let slugifiedHeading := slugify (text heading) in
      if (0 <? length slugifiedHeading)%nat
         && negb (bool_decide (slugify (basename file) = slugifiedHeading))
      then
        let newPath :=
          parent_path file ++ lit "/" ++ slugifiedHeading ++ lit ".md" in
        assign_isRenameInProgress true;;
        await_renameFile app file newPath;;
        assign_isRenameInProgress false
      else mret tt
  end.

(** [this.fileIsIncluded(file, path)], called from a method. *)
Definition this_fileIsIncluded (app : App) (activeFile : TFile)
    (path : jsstring) : Async jsvalue :=
  fun this =>
    {| value := match fileIsIncluded app this activeFile path with
                | Returned v => Some v
                | Thrown => None
                end;
       final := this; events := [] |}.

(** [this.settings] *)
Definition this_settings : Async FilenameSlugHeadingSyncPluginSettings :=
  fun this => {| value := Some (settings this); final := this; events := [] |}.

Definition handleRenameFile (app : App) (file : TAbstractFile) : Async unit :=
  match file with
  | AFolder _ => mret tt
  | AFile file =>
      if negb (bool_decide (extension file = lit "md")) then mret tt
      else if negb (bool_decide (getActiveFile app = Some file)) then mret tt
      else
        included ← this_fileIsIncluded app file (path file);
        if negb (truthy included) then mret tt
        else forceRenameFile app file
  end.

(** The listener of [vault.on('modify', ...)]. *)
Definition onModify (app : App) (file : TAbstractFile) : Async unit :=
  s ← this_settings;
  if useFileSaveHook s then handleRenameFile app file else mret tt.

(** The calls of the external rename in a log, with their outcome. *)
Definition renames (l : list Event) : list (TFile * jsstring * bool) :=
  omap (fun e => match e with
                 | EvRenameFile f p ok => Some (f, p, ok)
                 | _ => None
                 end) l.

End Controller.

(** ** A regular-expression engine for the examples

    The patterns made of literal characters, [.] and a [*] after either;
    a pattern with another syntax character is refused, the ones the
    examples use ("(" and "[") being refused by every engine. *)

Section LiteralDotStar.

Local Open Scope N_scope.

Inductive atom := Lit (c : code_unit) | Dot.

Definition is_syntax_character (c : code_unit) : bool :=
  existsb (fun m => c =? m) (lit "\^$.*+?()[]{}|").

(** [.] matches everything but a line terminator. *)
Definition atom_matches (a : atom) (c : code_unit) : bool :=
  match a with
  | Lit k => c =? k
  | Dot => negb ((c =? 0x0A) || (c =? 0x0D) || (c =? 0x2028) || (c =? 0x2029))
  end.

Fixpoint parse_pattern (p : jsstring) : option (list (atom * bool)) :=
  match p with
  | [] => Some []
  | c :: p' =>
      if is_syntax_character c && negb (c =? 0x2E) then None
      else
        let a := if c =? 0x2E then Dot else Lit c in
        match p' with
        | star :: p'' =>
            if star =? 0x2A
            then items ← parse_pattern p''; Some ((a, true) :: items)
            else items ← parse_pattern p'; Some ((a, false) :: items)
        | [] => Some [(a, false)]
        end
  end.

Fixpoint match_here (items : list (atom * bool)) (s : jsstring) : bool :=
  match items with
  | [] => true
  | (a, false) :: rest =>
      match s with
      | c :: s' => atom_matches a c && match_here rest s'
      | [] => false
      end
  | (a, true) :: rest =>
      (fix star (s : jsstring) : bool :=
         match_here rest s
         || match s with
            | c :: s' => atom_matches a c && star s'
            | [] => false
            end) s
  end.

Fixpoint match_anywhere (items : list (atom * bool)) (s : jsstring) : bool :=
  match_here items s
  || match s with
     | _ :: s' => match_anywhere items s'
     | [] => false
     end.

Definition literal_dot_star : RegExpEngine := {|
  RegExp := list (atom * bool);
  new_RegExp := parse_pattern;
  exec_matches := match_anywhere
|}.

End LiteralDotStar.

(** ** Properties of slugs and of heading texts *)

Section Properties.

Local Open Scope N_scope.

(** The characters a slug is made of: [a-z], [0-9] and the hyphen. *)
Definition is_slug_unit (c : code_unit) : bool :=
  is_lower c || is_digit c || is_hyphen c.

Fixpoint no_adjacent_hyphens (s : jsstring) : bool :=
  match s with
  | c :: s' =>
      match s' with
      | d :: _ => negb (is_hyphen c && is_hyphen d) && no_adjacent_hyphens s'
      | [] => true
      end
  | [] => true
  end.

(** The punctuation of Basic Latin. *)
Definition is_ascii_punctuation (c : code_unit) : bool :=
  ((0x21 <=? c) && (c <=? 0x2F)) || ((0x3A <=? c) && (c <=? 0x40))
  || ((0x5B <=? c) && (c <=? 0x60)) || ((0x7B <=? c) && (c <=? 0x7E)).

Definition punctuation_but_hyphen (c : code_unit) : bool :=
  is_ascii_punctuation c && negb (is_hyphen c).

End Properties.

(** ** The slug algorithm as the specification words it (section 4.1)

    Seven steps in the specification's order, each written from its
    sentence; the normalization form of step 1 is a parameter, the
    specification's being canonical decomposition, [NFD]. *)

Section Reference.

Local Open Scope N_scope.

Context {U : Unicode}.

(** Step 2: "Strip all combining diacritical marks (U+0300-U+036F)". *)
Definition strip_marks (s : jsstring) : jsstring :=
  filter (fun c => ¬ (0x0300 <= c <= 0x036F)) s.

(** Step 5: "Remove every character that is not an ASCII letter, ASCII
    digit, space, or hyphen". *)
Definition is_ascii_letter (c : code_unit) : bool := is_upper c || is_lower c.
Definition keep_slug_characters (s : jsstring) : jsstring :=
  filter (fun c => is_ascii_letter c || is_digit c || is_space c
                   || is_hyphen c = true) s.

(** Steps 6 and 7: "Replace every run of one-or-more ... with a single
    hyphen". The hyphen is written where the run ends. *)
Fixpoint runs_to_hyphen (in_class : code_unit -> bool) (s : jsstring) : jsstring :=
  match s with
  | [] => []
  | c :: s' =>
      if in_class c
      then match s' with
           | d :: _ =>
               if in_class d then runs_to_hyphen in_class s'
               else 0x2D :: runs_to_hyphen in_class s'
           | [] => [0x2D]
           end
      else c :: runs_to_hyphen in_class s'
  end.

Definition slug_reference (form : NormalizationForm) (text : jsstring) : jsstring :=
  let s1 := normalize form text in
  let s2 := strip_marks s1 in
  let s3 := trim s2 in
  let s4 := toLowerCase s3 in
  let s5 := keep_slug_characters s4 in
  let s6 := runs_to_hyphen isWhiteSpace s5 in
  runs_to_hyphen is_hyphen s6.

End Reference.

(** ** Heading extraction as the specification words it (section 4.2) *)

Section HeadingSpec.

Implicit Types (lines : list jsstring) (i : nat).

(** Line [i] begins with "# ". *)
Definition prefix_line lines i : Prop :=
  exists line, lines !! i = Some line /\ startsWith line (lit "# ") = true.

(** Line [i] is immediately followed by a line of one or more [=]. *)
Definition underlined_line lines i : Prop :=
  exists next, lines !! (i + 1) = Some next /\ is_equals_run next = true.

(** [h] is the match the specification reads at line [i]: prefix style
    first, underline style for a line that does not begin with "# ". *)
Definition heading_at lines i (h : LinePointer) : Prop :=
  exists line, lines !! i = Some line /\
    ((startsWith line (lit "# ") = true
      /\ h = {| lineNumber := i; text := drop 2 line; style := Prefix |})
     \/ (startsWith line (lit "# ") = false /\ underlined_line lines i
         /\ h = {| lineNumber := i; text := line; style := Underline |})).

(** [start] is the body start: the line after the second "---" when line
    0 is "---" and a later line is, line 0 otherwise. *)
Definition body_start lines (start : nat) : Prop :=
  (lines !! 0 = Some (lit "---")
   /\ exists j, 1 <= j /\ lines !! j = Some (lit "---")
        /\ (forall k, 1 <= k < j -> lines !! k <> Some (lit "---"))
        /\ start = j + 1)
  \/ ((lines !! 0 <> Some (lit "---")
       \/ forall j, 1 <= j -> lines !! j <> Some (lit "---"))
      /\ start = 0).

End HeadingSpec.

(** ** Concrete inputs *)

Section Scenarios.

Local Open Scope N_scope.

(** "Café — Déjà Vu", as the specification writes it (precomposed). *)
Definition cafe_deja_vu : jsstring :=
  lit "Caf" ++ [0xE9] ++ lit " " ++ [0x2014] ++ lit " D" ++ [0xE9]
    ++ lit "j" ++ [0xE0] ++ lit " Vu".

(** "x²" *)
Definition x_squared : jsstring := lit "x" ++ [0xB2].

(** The note [notes/Untitled.md]. *)
Definition untitled : TFile := {|
  path := lit "notes/Untitled.md";
  basename := lit "Untitled";
  extension := lit "md";
  parent_path := lit "notes"
|}.

(** A host where [untitled] is the active file, holds [data], is not
    excluded by the other rule system, and where every rename fulfils or
    every rename rejects. *)
Definition host (data : jsstring) (rename_fulfils : bool) : App := {|
  isExcluded := fun _ => false;
  getActiveFile := Some untitled;
  vault_read := fun _ => Some data;
  renameFile_fulfils := fun _ _ => rename_fulfils
|}.

(** The same host with [untitled] excluded by the other rule system. *)
Definition host_excluding (data : jsstring) : App := {|
  isExcluded := fun _ => true;
  getActiveFile := Some untitled;
  vault_read := fun _ => Some data;
  renameFile_fulfils := fun _ _ => true
|}.

(** The plugin as [onload] leaves it. *)
Definition loaded : Plugin := {|
  isRenameInProgress := false;
  settings := DEFAULT_SETTINGS
|}.

(** The plugin with the folder [notes] included by the regex rule, in
    the state [forceRenameFile] sets before it renames. *)
Definition renaming : Plugin := {|
  isRenameInProgress := true;
  settings := {| includeRegex := lit "notes/.*"; includedFiles := ∅;
                 useFileOpenHook := true; useFileSaveHook := true |}
|}.

End Scenarios.

(** ** What an evaluation decides *)

Section Decision.

Context {U : Unicode}.

(** The path [forceRenameFile] renames [file] to when it reads [data],
    [None] when it leaves the file alone. *)
Definition rename_target (file : TFile) (data : jsstring) : option jsstring :=
  let lines := split 0x0A%N data in
  match findHeading lines (findNoteStart lines) with
  | None => None
  | Some heading =>
      let slugifiedHeading := slugify (text heading) in
      if (0 <? length slugifiedHeading)%nat
         && negb (bool_decide (slugify (basename file) = slugifiedHeading))
      then Some (parent_path file ++ lit "/" ++ slugifiedHeading ++ lit ".md")
      else None
  end.

(** The renames of a log that took effect. *)
Definition fulfilled_renames (l : list Event) : list (TFile * jsstring * bool) :=
  filter (fun r => snd r = true) (renames l).

Definition set_isRenameInProgress (b : bool) (this : Plugin) : Plugin :=
  {| isRenameInProgress := b; settings := settings this |}.

End Decision.

(** ** The settings surface (src/main.ts, lines 56-72, 222-228, 241-351) *)

(** A run of a callback of the settings surface: how it ends, the plugin
    object it leaves, and the settings handed to [saveData], in order. *)
Record UiRun (A : Type) := {
  ui_value : completion A;
  ui_final : Plugin;
  ui_saved : list FilenameSlugHeadingSyncPluginSettings
}.
Arguments ui_value {A} _.
Arguments ui_final {A} _.
Arguments ui_saved {A} _.

(** [this.settings.includedFiles[key] = null], for a key other than
    "__proto__" (that assignment goes to the setter of the prototype and
    stores no key). *)
Definition assign_includedFile (key : jsstring) (this : Plugin) : Plugin := {|
  isRenameInProgress := isRenameInProgress this;
  settings := {|
    includeRegex := includeRegex (settings this);
    includedFiles := <[key := tt]> (includedFiles (settings this));
    useFileOpenHook := useFileOpenHook (settings this);
    useFileSaveHook := useFileSaveHook (settings this) |}
|}.

(** [delete this.plugin.settings.includedFiles[key]] *)
Definition delete_includedFile (key : jsstring) (this : Plugin) : Plugin := {|
  isRenameInProgress := isRenameInProgress this;
  settings := {|
    includeRegex := includeRegex (settings this);
    includedFiles := delete key (includedFiles (settings this));
    useFileOpenHook := useFileOpenHook (settings this);
    useFileSaveHook := useFileSaveHook (settings this) |}
|}.

(** [this.plugin.settings.includeRegex = value] *)
Definition assign_includeRegex (value : jsstring) (this : Plugin) : Plugin := {|
  isRenameInProgress := isRenameInProgress this;
  settings := {|
    includeRegex := value;
    includedFiles := includedFiles (settings this);
    useFileOpenHook := useFileOpenHook (settings this);
    useFileSaveHook := useFileSaveHook (settings this) |}
|}.

(** The [checkCallback] of the command "Include current file" (lines
    59-71). [activeLeaf] tells whether [workspace.activeLeaf] is an
    object. Reading [.path] of the [null] that [getActiveFile()] returns
    without an active file throws before anything is assigned. *)
Definition include_current_file (app : App) (activeLeaf checking : bool)
    (this : Plugin) : UiRun bool :=
  if activeLeaf then
    if negb checking then
      match getActiveFile app with
      | None => {| ui_value := Thrown; ui_final := this; ui_saved := [] |}
      | Some file =>
          let this' := assign_includedFile (path file) this in
          {| ui_value := Returned true; ui_final := this';
             ui_saved := [settings this'] |}
      end
    else {| ui_value := Returned true; ui_final := this; ui_saved := [] |}
  else {| ui_value := Returned false; ui_final := this; ui_saved := [] |}.

(** The [onClick] of the "Delete" button of an included file (lines
    344-348), up to the call of [display]. *)
Definition delete_included_file (key : jsstring) (this : Plugin) : UiRun unit :=
  let this' := delete_includedFile key this in
  {| ui_value := Returned tt; ui_final := this'; ui_saved := [settings this'] |}.

Section SettingTab.

Context {E : RegExpEngine}.

(** [renderRegexIncludedFiles(div)] (lines 245-265): the descriptions of
    the settings it leaves in [div], in order. [files] is
    [this.app.vault.getFiles()]. *)
Definition renderRegexIncludedFiles (files : list TFile)
    (s : FilenameSlugHeadingSyncPluginSettings) : list jsstring :=
  if bool_decide (includeRegex s = []) then []
  else
    match new_RegExp (includeRegex s) with
    | None => (* [catch (e) { return; }] *) []
    | Some reg =>
        map path (List.filter (fun file => exec_matches reg (path file)) files)
    end.

(** The [onChange] of the text field "Include Regex Rule" (lines
    284-294): the run and what [renderRegexIncludedFiles] then shows. *)
Definition includeRegex_onChange (files : list TFile) (value : jsstring)
    (this : Plugin) : UiRun (list jsstring) :=
  let this' :=
    match new_RegExp value with
    | Some _ => assign_includeRegex value this
    | None => (* [catch] *) assign_includeRegex [] this
    end in
  {| ui_value := Returned (renderRegexIncludedFiles files (settings this'));
     ui_final := this'; ui_saved := [settings this'] |}.

(** The answer of the regex rule of [fileIsIncluded] as a boolean:
    whether the pattern is not empty, compiles and matches. *)
Definition regex_includes (s : FilenameSlugHeadingSyncPluginSettings)
    (path : jsstring) : bool :=
  negb (bool_decide (includeRegex s = []))
  && match new_RegExp (includeRegex s) with
     | Some reg => exec_matches reg path
     | None => false
     end.

End SettingTab.

(** The [onChange] of the toggle "Use File Save Hook" (lines 319-322). *)
Definition useFileSaveHook_onChange (value : bool) (this : Plugin) : UiRun unit :=
  let this' := {|
    isRenameInProgress := isRenameInProgress this;
    settings := {|
      includeRegex := includeRegex (settings this);
      includedFiles := includedFiles (settings this);
      useFileOpenHook := useFileOpenHook (settings this);
      useFileSaveHook := value |} |} in
  {| ui_value := Returned tt; ui_final := this'; ui_saved := [settings this'] |}.

(** The [onChange] of the toggle "Use File Open Hook" (lines 305-308). *)
Definition useFileOpenHook_onChange (value : bool) (this : Plugin) : UiRun unit :=
  let this' := {|
    isRenameInProgress := isRenameInProgress this;
    settings := {|
      includeRegex := includeRegex (settings this);
      includedFiles := includedFiles (settings this);
      useFileOpenHook := value;
      useFileSaveHook := useFileSaveHook (settings this) |} |} in
  {| ui_value := Returned tt; ui_final := this'; ui_saved := [settings this'] |}.

(** ** Loading and saving (src/main.ts, lines 222-228) *)

(** What [loadData()] resolves to when the data file exists: the fields
    the file holds. *)
Record PersistedData := {
  data_includeRegex : option jsstring;
  data_includedFiles : option (gmap (list N) unit);
  data_useFileOpenHook : option bool;
  data_useFileSaveHook : option bool
}.

(** [Object.assign({}, DEFAULT_SETTINGS, data)]: a field of [data]
    replaces the default, a [null] source is skipped. *)
Definition Object_assign_settings (data : option PersistedData)
    : FilenameSlugHeadingSyncPluginSettings :=
  match data with
  | None => DEFAULT_SETTINGS
  | Some d => {|
      includeRegex :=
        default (includeRegex DEFAULT_SETTINGS) (data_includeRegex d);
      includedFiles :=
        default (includedFiles DEFAULT_SETTINGS) (data_includedFiles d);
      useFileOpenHook :=
        default (useFileOpenHook DEFAULT_SETTINGS) (data_useFileOpenHook d);
      useFileSaveHook :=
        default (useFileSaveHook DEFAULT_SETTINGS) (data_useFileSaveHook d) |}
  end.

(** [loadSettings], as [onload] calls it. *)
Definition loadSettings (data : option PersistedData) (this : Plugin) : Plugin := {|
  isRenameInProgress := isRenameInProgress this;
  settings := Object_assign_settings data
|}.

(** The plugin object when [onload] has loaded the settings. *)
Definition onload (data : option PersistedData) : Plugin :=
  loadSettings data
    {| isRenameInProgress := false; settings := DEFAULT_SETTINGS |}.

(** The [editorCallback] of the command "Slugify Heading as Filename"
    (lines 77-78). *)
Definition slugify_heading_as_filename {U : Unicode} (app : App)
    (view_file : TFile) : Async unit :=
  forceRenameFile app view_file.

(** ** Letters and digits of Basic Latin *)

Definition is_ascii_alnum (c : code_unit) : bool :=
  is_ascii_letter c || is_digit c.

(** What step 5 of [slugify] would remove after lowercasing. *)
Definition has_no_slug (c : code_unit) : bool :=
  negb (is_ascii_alnum c || is_space c || is_hyphen c).

(** A line that is empty or ends with a carriage return: the lines
    [split] makes of a document with Windows line endings. *)
Definition empty_or_ends_with_CR (line : jsstring) : bool :=
  match rev line with
  | [] => true
  | c :: _ => (c =? 0x0D)%N
  end.

(** ** More concrete inputs *)

Section MoreScenarios.

Local Open Scope N_scope.

(** The note [notes/Other.md]. *)
Definition other_note : TFile := {|
  path := lit "notes/Other.md";
  basename := lit "Other";
  extension := lit "md";
  parent_path := lit "notes"
|}.

(** The note [notes/hello.md]. *)
Definition hello_note : TFile := {|
  path := lit "notes/hello.md";
  basename := lit "hello";
  extension := lit "md";
  parent_path := lit "notes"
|}.

(** The plugin with [notes/Untitled.md] included by hand and a pattern
    that includes the folder [Other] only. *)
Definition including_untitled : Plugin := {|
  isRenameInProgress := false;
  settings := {| includeRegex := lit "Other/.*";
                 includedFiles := {[ path untitled := tt ]};
                 useFileOpenHook := true; useFileSaveHook := true |}
|}.

(** A document with Windows line endings whose first line is underlined
    and whose third line is a prefix heading. *)
Definition crlf_underlined : jsstring :=
  lit "Hello" ++ [0x0D; 0x0A] ++ lit "===" ++ [0x0D; 0x0A]
    ++ lit "# World" ++ [0x0D; 0x0A].

End MoreScenarios.

(** * Examples *)

Section SlugifyExamples.

Local Open Scope N_scope.

Example slugify_cafe : slugify (U := latin1) cafe_deja_vu = lit "cafe-deja-vu".
Proof. vm_compute. reflexivity. Qed.

Example slugify_hyphens : slugify (U := latin1) (lit "---") = lit "-".
Proof. vm_compute. reflexivity. Qed.

Example slugify_bangs : slugify (U := latin1) (lit "!!!") = [].
Proof. vm_compute. reflexivity. Qed.

Example slugify_hello :
  slugify (U := latin1) (lit "  Hello,   World!  ") = lit "hello-world".
Proof. vm_compute. reflexivity. Qed.

Example slugify_trailing_hyphen :
  slugify (U := latin1) (lit "a -") = lit "a-".
Proof. vm_compute. reflexivity. Qed.

Example split_lines :
  split 0x0A (lit "a" ++ [0x0A] ++ lit "b" ++ [0x0A]) = [lit "a"; lit "b"; []]
  /\ split 0x0A [] = [[]].
Proof. vm_compute. split; reflexivity. Qed.

Example trim_both_ends :
  trim ([0x09; 0xA0] ++ lit " a b " ++ [0x0A; 0xFEFF]) = lit "a b".
Proof. vm_compute. reflexivity. Qed.

Example slugify_superscript : slugify (U := latin1) x_squared = lit "x2".
Proof. vm_compute. reflexivity. Qed.

End SlugifyExamples.

Section HeadingExamples.

Example front_matter_skip :
  let lines := map lit ["---"; "title: x"; "---"; "# Hello"]%string in
  findNoteStart lines = 3
  /\ findHeading lines (findNoteStart lines)
     = Some {| lineNumber := 3; text := lit "Hello"; style := Prefix |}.
Proof. vm_compute. split; reflexivity. Qed.

Example prefix_precedence :
  let lines := map lit ["# Title"; "======"]%string in
  findHeading lines (findNoteStart lines)
  = Some {| lineNumber := 0; text := lit "Title"; style := Prefix |}.
Proof. vm_compute. reflexivity. Qed.

Example underline_detection :
  let lines := map lit ["Hello"; "==="; "more text"]%string in
  findHeading lines (findNoteStart lines)
  = Some {| lineNumber := 0; text := lit "Hello"; style := Underline |}.
Proof. vm_compute. reflexivity. Qed.

Example unclosed_front_matter :
  let lines := map lit ["---"; "==="]%string in
  findNoteStart lines = 0
  /\ findHeading lines (findNoteStart lines)
     = Some {| lineNumber := 0; text := lit "---"; style := Underline |}.
Proof. vm_compute. split; reflexivity. Qed.

End HeadingExamples.

Section RegExpExamples.

Example regexp_folder :
  (reg ← new_RegExp (RegExpEngine := literal_dot_star) (lit "MyFolder/.*");
   Some (exec_matches reg (lit "x/MyFolder/a.md")))
  = Some true.
Proof. vm_compute. reflexivity. Qed.

Example regexp_no_match :
  (reg ← new_RegExp (RegExpEngine := literal_dot_star) (lit "MyFolder/.*");
   Some (exec_matches reg (lit "Other/a.md")))
  = Some false.
Proof. vm_compute. reflexivity. Qed.

Example regexp_invalid :
  new_RegExp (RegExpEngine := literal_dot_star) (lit "(") = None.
Proof. vm_compute. reflexivity. Qed.

End RegExpExamples.

(** * Proofs *)

(** ** Character classes *)

Ltac char_reflect :=
  unfold not_slug_char, is_lower, is_upper, is_digit, is_space, is_hyphen,
    is_ascii, is_combining_mark, isWhiteSpace, ascii_lower in *;
  repeat (progress
            (rewrite ?negb_true_iff, ?negb_false_iff, ?orb_true_iff,
               ?andb_true_iff, ?orb_false_iff, ?andb_false_iff, ?N.leb_le,
               ?N.ltb_lt, ?N.eqb_eq, ?N.leb_gt, ?N.ltb_ge, ?N.eqb_neq in *)).

Ltac char_lia :=
  char_reflect;
  repeat match goal with
         | |- context [if ?b then _ else _] => destruct b eqn:?; char_reflect
         end;
  rewrite ?negb_true_iff, ?negb_false_iff;
  rewrite ?orb_true_iff, ?andb_true_iff, ?orb_false_iff, ?andb_false_iff;
  rewrite ?negb_true_iff, ?negb_false_iff;
  rewrite ?N.leb_le, ?N.ltb_lt, ?N.eqb_eq, ?N.leb_gt, ?N.ltb_ge, ?N.eqb_neq;
  lia.

Lemma slug_unit_ascii c : is_slug_unit c = true -> is_ascii c = true.
Proof. unfold is_slug_unit. intros H. char_lia. Qed.

Lemma slug_unit_not_mark c : is_slug_unit c = true -> is_combining_mark c = false.
Proof. unfold is_slug_unit. intros H. char_lia. Qed.

Lemma slug_unit_not_space c : is_slug_unit c = true -> isWhiteSpace c = false.
Proof. unfold is_slug_unit. intros H. char_lia. Qed.

Lemma slug_unit_kept c : is_slug_unit c = true -> not_slug_char c = false.
Proof. unfold is_slug_unit. intros H. char_lia. Qed.

Lemma slug_unit_lower c : is_slug_unit c = true -> ascii_lower c = c.
Proof. unfold is_slug_unit. intros H. char_lia. Qed.

(** ** Replacement by a character class *)

Section Replace.

Local Open Scope N_scope.

Implicit Types (cls : code_unit -> bool) (s r : jsstring).

Lemma replace_class_removes cls s :
  forallb (fun c => negb (cls c)) (replace_class cls [] s) = true.
Proof.
  induction s as [|c s IH]; simpl; [reflexivity|].
  destruct (cls c) eqn:Hc; simpl; [assumption|].
  rewrite Hc. simpl. assumption.
Qed.

Lemma replace_class_none cls r s :
  forallb (fun c => negb (cls c)) s = true -> replace_class cls r s = s.
Proof.
  induction s as [|c s IH]; simpl; [reflexivity|].
  intros [Hc Hs]%andb_true_iff. apply negb_true_iff in Hc. rewrite Hc.
  f_equal. auto.
Qed.

Lemma replace_runs_from_none b cls r s :
  forallb (fun c => negb (cls c)) s = true -> replace_runs_from b cls r s = s.
Proof.
  revert b. induction s as [|c s IH]; intros b; simpl; [reflexivity|].
  intros [Hc Hs]%andb_true_iff. apply negb_true_iff in Hc. rewrite Hc.
  f_equal. auto.
Qed.

Lemma forallb_impl (p q : code_unit -> bool) s :
  (forall c, p c = true -> q c = true) ->
  forallb p s = true -> forallb q s = true.
Proof.
  intros Hpq. rewrite !forallb_forall. auto.
Qed.

Lemma dropWhile_none cls s :
  forallb (fun c => negb (cls c)) s = true -> dropWhile cls s = s.
Proof.
  destruct s as [|c s]; simpl; [reflexivity|].
  intros [Hc _]%andb_true_iff. apply negb_true_iff in Hc. now rewrite Hc.
Qed.

Lemma forallb_rev (p : code_unit -> bool) s :
  forallb p (rev s) = forallb p s.
Proof.
  induction s as [|c s IH]; simpl; [reflexivity|].
  rewrite forallb_app, IH. simpl. rewrite andb_true_r. apply andb_comm.
Qed.

Lemma trim_none s :
  forallb (fun c => negb (isWhiteSpace c)) s = true -> trim s = s.
Proof.
  intros H. unfold trim, trimStart, trimEnd.
  rewrite (dropWhile_none _ s H).
  rewrite dropWhile_none by (rewrite forallb_rev; exact H).
  apply rev_involutive.
Qed.

(** What a scan writes is made of the replacement and of the units
    outside the class. *)
Lemma replace_runs_from_forallb (p q : code_unit -> bool) b cls r s :
  forallb q r = true ->
  (forall c, p c = true -> cls c = false -> q c = true) ->
  forallb p s = true ->
  forallb q (replace_runs_from b cls r s) = true.
Proof.
  intros Hr Hpq. revert b.
  induction s as [|c s IH]; intros b; cbn [replace_runs_from forallb];
    [reflexivity|].
  intros [Hc Hs]%andb_true_iff.
  destruct (cls c) eqn:Hcls.
  - rewrite forallb_app, IH by assumption. destruct b; [reflexivity|].
    rewrite Hr. reflexivity.
  - cbn [forallb]. rewrite IH, (Hpq c) by assumption. reflexivity.
Qed.

(** A run of white space among the characters step 5 keeps becomes a
    hyphen: what is left is made of slug units. *)
Lemma spaces_to_hyphen_units s :
  forallb (fun c => negb (not_slug_char c)) s = true ->
  forallb is_slug_unit (replace_runs isWhiteSpace (lit "-") s) = true.
Proof.
  apply replace_runs_from_forallb; [reflexivity|].
  intros c Hc Hw. unfold is_slug_unit. char_lia.
Qed.

Lemma collapse_hyphens_units s :
  forallb is_slug_unit s = true ->
  forallb is_slug_unit (replace_runs is_hyphen (lit "-") s) = true.
Proof.
  apply replace_runs_from_forallb; [reflexivity|]. auto.
Qed.

Lemma no_adjacent_hyphens_cons c d s :
  no_adjacent_hyphens (c :: d :: s)
  = negb (is_hyphen c && is_hyphen d) && no_adjacent_hyphens (d :: s).
Proof. reflexivity. Qed.

(** Inside a run nothing is written, so the output of a scan that is
    inside a run does not begin with a hyphen. *)
Lemma collapse_hyphens_no_adjacent b s :
  let out := replace_runs_from b is_hyphen [0x2D] s in
  no_adjacent_hyphens out = true
  /\ (b = true -> match out with c :: _ => is_hyphen c = false | [] => True end).
Proof.
  revert b.
  induction s as [|c s IH]; intros b; cbn [replace_runs_from];
    [split; auto|].
  destruct (is_hyphen c) eqn:Hh.
  - destruct (IH true) as [Hn Hhd]. specialize (Hhd eq_refl).
    destruct b; cbn [app]; [split; auto|].
    split; [|discriminate].
    destruct (replace_runs_from true is_hyphen [0x2D] s) as [|d out] eqn:Ho;
      [reflexivity|].
    rewrite no_adjacent_hyphens_cons, Hhd, andb_false_r. exact Hn.
  - destruct (IH false) as [Hn _]. split; [|intros _; exact Hh].
    destruct (replace_runs_from false is_hyphen [0x2D] s) as [|d out] eqn:Ho;
      [reflexivity|].
    rewrite no_adjacent_hyphens_cons, Hh. exact Hn.
Qed.

Lemma collapse_hyphens_fixed b s :
  no_adjacent_hyphens s = true ->
  (b = true -> match s with c :: _ => is_hyphen c = false | [] => True end) ->
  replace_runs_from b is_hyphen [0x2D] s = s.
Proof.
  revert b. induction s as [|c s IH]; intros b; cbn [replace_runs_from];
    [reflexivity|].
  intros Hn Hb. destruct (is_hyphen c) eqn:Hh.
  - destruct b; [specialize (Hb eq_refl); discriminate|].
    assert (c = 0x2D) as -> by (now apply N.eqb_eq).
    cbn [app]. f_equal. destruct s as [|d s]; [reflexivity|].
    rewrite no_adjacent_hyphens_cons in Hn.
    apply andb_true_iff in Hn as [Hcd Hn]. apply IH; [exact Hn|].
    intros _. cbn in Hcd. now apply negb_true_iff in Hcd.
  - f_equal. destruct s as [|d s]; [reflexivity|].
    rewrite no_adjacent_hyphens_cons in Hn.
    apply andb_true_iff in Hn as [_ Hn]. apply IH; [exact Hn|discriminate].
Qed.

End Replace.

(** ** The laws hold of the Latin-1 instance *)

Section Latin1Laws.

Local Open Scope N_scope.

Lemma lookup_row_below {A} (lo c : code_unit) (t : list (code_unit * A)) :
  forallb (fun e => lo <=? fst e) t = true -> c < lo -> lookup_row c t = None.
Proof.
  intros Ht Hc. induction t as [|[k v] t IH]; simpl in *; [reflexivity|].
  apply andb_true_iff in Ht as [Hk Ht]. apply N.leb_le in Hk.
  destruct (N.eqb_spec c k); [lia|auto].
Qed.

Lemma latin1_decompose_ascii f c :
  is_ascii c = true -> latin1_decompose f c = [c].
Proof.
  intros Hc. unfold latin1_decompose.
  rewrite (lookup_row_below 0xA0); [reflexivity|reflexivity|char_lia].
Qed.

Lemma latin1_lower_ascii c : is_ascii c = true -> latin1_lower c = ascii_lower c.
Proof. intros Hc. unfold latin1_lower. char_lia. Qed.

Lemma latin1_lower_not_upper c : is_upper (latin1_lower c) = false.
Proof. unfold latin1_lower. char_lia. Qed.

Lemma latin1_laws : UnicodeLaws latin1.
Proof.
  split.
  - intros f s. simpl. induction s as [|c s IH]; simpl; [reflexivity|].
    intros [Hc Hs]%andb_true_iff.
    rewrite latin1_decompose_ascii, IH by assumption. reflexivity.
  - intros s. simpl. induction s as [|c s IH]; simpl; [reflexivity|].
    intros [Hc Hs]%andb_true_iff.
    rewrite latin1_lower_ascii, IH by assumption. reflexivity.
  - intros s. simpl. induction s as [|c s IH]; simpl; [reflexivity|].
    rewrite latin1_lower_not_upper, IH. reflexivity.
Qed.

End Latin1Laws.

(** ** What [slugify] returns *)

Section SlugifyProperties.

Local Open Scope N_scope.

Context {U : Unicode}.

Lemma slugify_units x : forallb is_slug_unit (slugify x) = true.
Proof.
  unfold slugify. apply collapse_hyphens_units, spaces_to_hyphen_units.
  apply replace_class_removes.
Qed.

Lemma slugify_no_adjacent x : no_adjacent_hyphens (slugify x) = true.
Proof.
  unfold slugify, replace_runs.
  apply (collapse_hyphens_no_adjacent false).
Qed.

(** A string of slug units without two hyphens in a row goes through the
    seven replacements unchanged. *)
Lemma slugify_fixed {L : UnicodeLaws U} s :
  forallb is_slug_unit s = true -> no_adjacent_hyphens s = true ->
  slugify s = s.
Proof.
  intros Hu Hn. unfold slugify.
  assert (Ha : forallb is_ascii s = true)
    by (revert Hu; apply forallb_impl, slug_unit_ascii).
  assert (Hw : forallb (fun c => negb (isWhiteSpace c)) s = true)
    by (revert Hu; apply forallb_impl; intros c Hc;
        now rewrite slug_unit_not_space).
  rewrite (normalize_ascii NFKD s Ha).
  rewrite (replace_class_none is_combining_mark [] s)
    by (revert Hu; apply forallb_impl; intros c Hc;
        now rewrite slug_unit_not_mark).
  rewrite (trim_none s Hw), (toLowerCase_ascii s Ha).
  assert (map ascii_lower s = s) as ->.
  { clear Hn Ha Hw. induction s as [|c s IH]; simpl in *; [reflexivity|].
    apply andb_true_iff in Hu as [Hc Hs].
    rewrite slug_unit_lower, IH by assumption. reflexivity. }
  rewrite (replace_class_none not_slug_char [] s)
    by (revert Hu; apply forallb_impl; intros c Hc;
        now rewrite slug_unit_kept).
  unfold replace_runs.
  rewrite (replace_runs_from_none false isWhiteSpace _ s Hw).
  apply (collapse_hyphens_fixed false); [exact Hn|discriminate].
Qed.

(** C10. [slugify] is idempotent: every string it returns is made of
    lowercase ASCII letters, ASCII digits and hyphens, has no two
    adjacent hyphens, and is a fixed point of [slugify]. *)
Theorem slugify_idempotent {L : UnicodeLaws U} (x : jsstring) :
  forallb is_slug_unit (slugify x) = true
  /\ no_adjacent_hyphens (slugify x) = true
  /\ slugify (slugify x) = slugify x.
Proof.
  split; [apply slugify_units|]. split; [apply slugify_no_adjacent|].
  apply slugify_fixed; [apply slugify_units|apply slugify_no_adjacent].
Qed.

End SlugifyProperties.

Lemma slugify_idempotent_witness :
  let slug := slugify (U := latin1) in
  forallb is_slug_unit (slug cafe_deja_vu) = true
  /\ no_adjacent_hyphens (slug cafe_deja_vu) = true
  /\ slug (slug cafe_deja_vu) = slug cafe_deja_vu.
Proof. apply (@slugify_idempotent latin1 latin1_laws cafe_deja_vu). Defined.

(** ** [slugify] against the seven steps of the specification *)

Section Refinement.

Local Open Scope N_scope.

Context {U : Unicode}.

Lemma strip_marks_replace s :
  replace_class is_combining_mark [] s = strip_marks s.
Proof.
  unfold strip_marks. induction s as [|c s IH]; simpl; [reflexivity|].
  destruct (is_combining_mark c) eqn:Hc.
  - rewrite filter_cons_False; [exact IH|]. intros Hn. apply Hn. char_lia.
  - rewrite filter_cons_True; [now rewrite IH|]. char_lia.
Qed.

Lemma keep_slug_characters_replace s :
  forallb (fun c => negb (is_upper c)) s = true ->
  replace_class not_slug_char [] s = keep_slug_characters s.
Proof.
  unfold keep_slug_characters.
  induction s as [|c s IH]; simpl; [reflexivity|].
  intros [Hc Hs]%andb_true_iff. apply negb_true_iff in Hc.
  destruct (not_slug_char c) eqn:Hk; unfold not_slug_char in Hk.
  - apply negb_true_iff in Hk.
    rewrite filter_cons_False; [auto|].
    unfold is_ascii_letter. rewrite Hc. simpl. rewrite Hk. discriminate.
  - apply negb_false_iff in Hk.
    rewrite filter_cons_True; [now rewrite IH|].
    unfold is_ascii_letter. rewrite Hc. exact Hk.
Qed.

(** Writing the hyphen where a run ends or where it begins is the same. *)
Lemma runs_to_hyphen_replace cls s :
  runs_to_hyphen cls s = replace_runs_from false cls [0x2D] s
  /\ forall c, cls c = true ->
       runs_to_hyphen cls (c :: s) = 0x2D :: replace_runs_from true cls [0x2D] s.
Proof.
  induction s as [|d s [IHa IHb]].
  - split; [reflexivity|]. intros c Hc. simpl. now rewrite Hc.
  - split.
    + cbn [replace_runs_from]. destruct (cls d) eqn:Hd.
      * now rewrite IHb.
      * cbn [runs_to_hyphen]. rewrite Hd. now rewrite IHa.
    + intros c Hc. cbn [replace_runs_from].
      change (runs_to_hyphen cls (c :: d :: s))
        with (if cls c
              then if cls d then runs_to_hyphen cls (d :: s)
                   else 0x2D :: runs_to_hyphen cls (d :: s)
              else c :: runs_to_hyphen cls (d :: s)).
      rewrite Hc. destruct (cls d) eqn:Hd.
      * now rewrite IHb.
      * cbn [runs_to_hyphen]. rewrite Hd. now rewrite IHa.
Qed.

(** C5 (amended). [slugify] is the seven steps of the specification in
    their order, with compatibility decomposition (NFKD) as the
    normalization of step 1. *)
Theorem slugify_is_reference_NFKD {L : UnicodeLaws U} (x : jsstring) :
  slugify x = slug_reference NFKD x.
Proof.
  unfold slugify, slug_reference, replace_runs.
  rewrite strip_marks_replace.
  rewrite keep_slug_characters_replace by apply toLowerCase_no_upper.
  change (lit "-") with [0x2D].
  rewrite <- (proj1 (runs_to_hyphen_replace isWhiteSpace _)).
  rewrite <- (proj1 (runs_to_hyphen_replace is_hyphen _)).
  reflexivity.
Qed.

End Refinement.

Lemma slugify_is_reference_NFKD_witness :
  slugify (U := latin1) x_squared
  = slug_reference (U := latin1) NFKD x_squared.
Proof. apply (@slugify_is_reference_NFKD latin1 latin1_laws x_squared). Defined.

(** C5 (as stated). With canonical decomposition in step 1 the seven
    steps lose the digit of "x²", which [slugify] keeps. *)
Lemma slugify_differs_from_reference_NFD :
  slugify (U := latin1) x_squared = lit "x2"
  /\ slug_reference (U := latin1) NFD x_squared = lit "x"
  /\ slugify (U := latin1) x_squared
     <> slug_reference (U := latin1) NFD x_squared.
Proof. vm_compute. repeat split. discriminate. Qed.

(** ** Heading extraction *)

Section HeadingExtraction.

Implicit Types (lines : list jsstring) (i j k n : nat).

Lemma findNoteStart_loop_spec lines n i :
  let r := findNoteStart_loop n lines i in
  (exists j, i <= j < i + n /\ lines !! j = Some (lit "---")
     /\ (forall k, i <= k < j -> lines !! k <> Some (lit "---"))
     /\ r = j + 1)
  \/ ((forall k, i <= k < i + n -> lines !! k <> Some (lit "---")) /\ r = 0).
Proof.
  revert i. induction n as [|n IH]; intros i; cbn [findNoteStart_loop].
  - right. split; [intros k Hk; lia|reflexivity].
  - case_bool_decide as Hi.
    + left. exists i. repeat split; [lia|lia|exact Hi|intros k Hk; lia].
    + destruct (IH (i + 1)) as [(j & Hj & Hd & Hmin & Hr)|[Hnone Hr]].
      * left. exists j. repeat split; [lia|lia|exact Hd| |exact Hr].
        intros k Hk. destruct (decide (k = i)) as [->|]; [exact Hi|].
        apply Hmin. lia.
      * right. split; [|exact Hr]. intros k Hk.
        destruct (decide (k = i)) as [->|]; [exact Hi|]. apply Hnone. lia.
Qed.

Lemma findNoteStart_spec lines : body_start lines (findNoteStart lines).
Proof.
  unfold findNoteStart, body_start. case_bool_decide as H0.
  - destruct (findNoteStart_loop_spec lines (length lines - 1) 1)
      as [(j & Hj & Hd & Hmin & Hr)|[Hnone Hr]].
    + left. split; [exact H0|]. exists j. repeat split; [lia|assumption..].
    + right. split; [|exact Hr]. right. intros j Hj.
      destruct (decide (j < length lines)) as [Hlt|Hge].
      * apply Hnone. lia.
      * rewrite lookup_ge_None_2 by lia. discriminate.
  - right. split; [left; exact H0|reflexivity].
Qed.

Lemma findNoteStart_le lines : findNoteStart lines <= length lines.
Proof.
  unfold findNoteStart. case_bool_decide as H0; [|lia].
  destruct (findNoteStart_loop_spec lines (length lines - 1) 1)
    as [(j & Hj & Hd & _ & ->)|[_ ->]]; [|lia].
  apply lookup_lt_Some in Hd. lia.
Qed.

Lemma not_heading_line lines k line :
  lines !! k = Some line -> startsWith line (lit "# ") = false ->
  (forall next, lines !! (k + 1) = Some next -> is_equals_run next = false) ->
  ~ prefix_line lines k /\ ~ underlined_line lines k.
Proof.
  intros Hk Hp Hu. split.
  - intros (l & Hl & Hs). congruence.
  - intros (next & Hn & He). rewrite (Hu next Hn) in He. discriminate.
Qed.

Lemma findHeading_loop_spec lines n i :
  match findHeading_loop n lines i with
  | Some h =>
      i <= lineNumber h < i + n /\ heading_at lines (lineNumber h) h
      /\ forall k, i <= k < lineNumber h ->
           ~ prefix_line lines k /\ ~ underlined_line lines k
  | None =>
      forall k, i <= k < i + n -> k < length lines ->
        ~ prefix_line lines k /\ ~ underlined_line lines k
  end.
Proof.
  revert i. induction n as [|n IH]; intros i; cbn [findHeading_loop];
    [intros k Hk; lia|].
  destruct (lines !! i) as [line|] eqn:Hi.
  2:{ intros k Hk Hlt. apply lookup_ge_None in Hi. lia. }
  destruct (startsWith line (lit "# ")) eqn:Hp.
  { cbn [lineNumber]. split; [lia|]. split; [|intros k Hk; lia].
    exists line. split; [exact Hi|]. left. split; [exact Hp|reflexivity]. }
  assert (Hstep :
    (forall next, lines !! (i + 1) = Some next -> is_equals_run next = false) ->
    match findHeading_loop n lines (i + 1) with
    | Some h =>
        i <= lineNumber h < i + S n /\ heading_at lines (lineNumber h) h
        /\ forall k, i <= k < lineNumber h ->
             ~ prefix_line lines k /\ ~ underlined_line lines k
    | None =>
        forall k, i <= k < i + S n -> k < length lines ->
          ~ prefix_line lines k /\ ~ underlined_line lines k
    end).
  { intros Hu. specialize (IH (i + 1)).
    destruct (findHeading_loop n lines (i + 1)) as [h|].
    - destruct IH as (Hr & Hh & Hmin). split; [lia|]. split; [exact Hh|].
      intros k Hk. destruct (decide (k = i)) as [->|].
      + eapply not_heading_line; eauto.
      + apply Hmin. lia.
    - intros k Hk Hlt. destruct (decide (k = i)) as [->|].
      + eapply not_heading_line; eauto.
      + apply IH; lia. }
  destruct (lines !! (i + 1)) as [next|] eqn:Hn.
  - destruct (is_equals_run next) eqn:He.
    + cbn [lineNumber]. split; [lia|]. split; [|intros k Hk; lia].
      exists line. split; [exact Hi|]. right. split; [exact Hp|].
      split; [|reflexivity]. exists next. split; assumption.
    + apply Hstep. intros next' [= <-]. exact He.
  - apply Hstep. intros next' [=].
Qed.

(** C8. Heading extraction returns the first match at or after the body
    start: the body start is the line after the second "---" when line 0
    is "---" and a later line is, line 0 otherwise; the match is at the
    lowest line that begins with "# " or is followed by a line of one or
    more "=", read prefix style when it begins with "# " and underline
    style only when it does not; there is no result exactly when no line
    from the body start on is of either kind. *)
Theorem heading_extraction_first_match lines :
  let start := findNoteStart lines in
  body_start lines start
  /\ match findHeading lines start with
     | Some h =>
         start <= lineNumber h
         /\ heading_at lines (lineNumber h) h
         /\ forall k, start <= k < lineNumber h ->
              ~ prefix_line lines k /\ ~ underlined_line lines k
     | None =>
         forall k, start <= k ->
           ~ prefix_line lines k /\ ~ underlined_line lines k
     end.
Proof.
  intros start. split; [apply findNoteStart_spec|].
  pose proof (findNoteStart_le lines) as Hle. fold start in Hle.
  unfold findHeading.
  pose proof (findHeading_loop_spec lines (length lines - start) start) as H.
  destruct (findHeading_loop (length lines - start) lines start) as [h|].
  - destruct H as (Hr & Hh & Hmin). split; [lia|]. split; assumption.
  - intros k Hk. destruct (decide (k < length lines)) as [Hlt|Hge].
    + apply H; lia.
    + split.
      * intros (l & Hl & _). apply lookup_lt_Some in Hl. lia.
      * intros (next & Hn & _). apply lookup_lt_Some in Hn. lia.
Qed.

End HeadingExtraction.

(** ** The inclusion policy *)

Section InclusionPolicy.

Context {E : RegExpEngine}.

(** C6. When the external exclusion predicate reports the file as
    excluded by the other rule system, [fileIsIncluded] returns [true],
    whatever the settings hold and whatever the regular-expression
    engine would answer: the rule comes first and nothing after it is
    looked at. *)
Theorem excluded_elsewhere_is_included (app : App) (this : Plugin)
    (activeFile : TFile) (path : jsstring) :
  isExcluded app activeFile = true ->
  fileIsIncluded app this activeFile path = Returned (JBool true).
Proof. intros Hx. unfold fileIsIncluded. rewrite Hx. reflexivity. Qed.

(** No path of [fileIsIncluded] lets an exception out. *)
Lemma fileIsIncluded_never_throws (app : App) (this : Plugin)
    (activeFile : TFile) (path : jsstring) :
  fileIsIncluded app this activeFile path <> Thrown.
Proof.
  unfold fileIsIncluded, fileIsIncluded_try.
  destruct (isExcluded app activeFile); [discriminate|].
  destruct (get_is_defined _ _); [discriminate|].
  case_bool_decide; [discriminate|].
  destruct (new_RegExp _); discriminate.
Qed.

(** With a regex that is not empty, the last rule answers [false] when
    the pattern is invalid or does not match. *)
Lemma fileIsIncluded_regex_excludes (app : App) (this : Plugin)
    (activeFile : TFile) (path : jsstring) :
  isExcluded app activeFile = false ->
  get_is_defined (includedFiles (settings this)) path = false ->
  includeRegex (settings this) <> [] ->
  match new_RegExp (includeRegex (settings this)) with
  | None => True
  | Some reg => exec_matches reg path = false
  end ->
  fileIsIncluded app this activeFile path = Returned (JBool false).
Proof.
  intros Hx Hd Hr Hm. unfold fileIsIncluded, fileIsIncluded_try.
  rewrite Hx, Hd. rewrite bool_decide_eq_false_2 by exact Hr.
  destruct (new_RegExp _); [rewrite Hm|]; reflexivity.
Qed.

(** With the empty regex, the last rule ends in a bare [return]. *)
Lemma fileIsIncluded_empty_regex (app : App) (this : Plugin)
    (activeFile : TFile) (path : jsstring) :
  isExcluded app activeFile = false ->
  get_is_defined (includedFiles (settings this)) path = false ->
  includeRegex (settings this) = [] ->
  fileIsIncluded app this activeFile path = Returned JUndefined.
Proof.
  intros Hx Hd Hr. unfold fileIsIncluded, fileIsIncluded_try.
  rewrite Hx, Hd. rewrite bool_decide_eq_true_2 by exact Hr. reflexivity.
Qed.

End InclusionPolicy.

Lemma excluded_elsewhere_is_included_witness :
  isExcluded (host_excluding (lit "# Hello")) untitled = true
  /\ fileIsIncluded (E := literal_dot_star) (host_excluding (lit "# Hello"))
       loaded untitled (path untitled)
     = Returned (JBool true).
Proof.
  split; [reflexivity|].
  apply (@excluded_elsewhere_is_included literal_dot_star); reflexivity.
Defined.

(** C7 (the code at the failing input). With the default settings (empty
    regex, no explicit file) and a file the other rule system does not
    exclude, [fileIsIncluded] returns [undefined], not the boolean
    [false]. *)
Theorem fileIsIncluded_default_settings_undefined :
  fileIsIncluded (E := literal_dot_star) (host (lit "# Hello") true)
    loaded untitled (path untitled)
  = Returned JUndefined.
Proof. vm_compute. reflexivity. Qed.

Example fileIsIncluded_invalid_regex :
  fileIsIncluded (E := literal_dot_star) (host (lit "# Hello") true)
    {| isRenameInProgress := false;
       settings := {| includeRegex := lit "("; includedFiles := ∅;
                      useFileOpenHook := true; useFileSaveHook := true |} |}
    untitled (path untitled)
  = Returned (JBool false).
Proof. vm_compute. reflexivity. Qed.

Example fileIsIncluded_explicit :
  fileIsIncluded (E := literal_dot_star) (host (lit "# Hello") true)
    {| isRenameInProgress := false;
       settings := {| includeRegex := lit "Other/.*";
                      includedFiles := {[ path untitled := tt ]};
                      useFileOpenHook := true; useFileSaveHook := true |} |}
    untitled (path untitled)
  = Returned (JBool true).
Proof. vm_compute. reflexivity. Qed.

(** ** The controller *)

Section ControllerRuns.

Context {U : Unicode}.

(** The four ways an evaluation of [forceRenameFile] goes. *)
Lemma forceRenameFile_run (app : App) (file : TFile) (this : Plugin) :
  forceRenameFile app file this =
  match vault_read app file with
  | None => {| value := None; final := this; events := [EvRead file] |}
  | Some data =>
      match rename_target file data with
      | None => {| value := Some tt; final := this; events := [EvRead file] |}
      | Some newPath =>
          if renameFile_fulfils app file newPath
          then {| value := Some tt;
                  final := set_isRenameInProgress false this;
                  events := [EvRead file; EvAssignInProgress true;
                             EvRenameFile file newPath true;
                             EvAssignInProgress false] |}
          else {| value := None;
                  final := set_isRenameInProgress true this;
                  events := [EvRead file; EvAssignInProgress true;
                             EvRenameFile file newPath false] |}
      end
  end.
Proof.
  unfold forceRenameFile, rename_target, mbind, Async_bind, await_read.
  cbn [value final events].
  destruct (vault_read app file) as [data|]; [|reflexivity].
  destruct (findHeading _ _) as [heading|]; [|reflexivity].
  destruct (_ && _); [|reflexivity].
  unfold await_renameFile, assign_isRenameInProgress. cbn [value final events].
  destruct (renameFile_fulfils app file _); reflexivity.
Qed.

(** The events of [forceRenameFile] do not depend on the plugin object. *)
Lemma forceRenameFile_events_any_state (app : App) (file : TFile)
    (this this' : Plugin) :
  events (forceRenameFile app file this) = events (forceRenameFile app file this')
  /\ value (forceRenameFile app file this) = value (forceRenameFile app file this').
Proof.
  rewrite !forceRenameFile_run.
  destruct (vault_read app file) as [data|]; [|split; reflexivity].
  destruct (rename_target file data) as [newPath|]; [|split; reflexivity].
  destruct (renameFile_fulfils app file newPath); split; reflexivity.
Qed.

End ControllerRuns.

(** C1 (the code at the failing input). The note holds "# Hello", its
    basename is "Untitled" and the host rejects the rename: the flag is
    set before the rename is called, nothing runs after the rejected
    [await], and the evaluation leaves [isRenameInProgress] at [true]. *)
Theorem rejected_rename_leaves_flag_set :
  let r := forceRenameFile (U := latin1) (host (lit "# Hello") false)
             untitled loaded in
  events r = [EvRead untitled; EvAssignInProgress true;
              EvRenameFile untitled (lit "notes/hello.md") false]
  /\ value r = None
  /\ isRenameInProgress (final r) = true.
Proof. vm_compute. repeat split. Qed.

Example fulfilled_rename_resets_flag :
  let r := forceRenameFile (U := latin1) (host (lit "# Hello") true)
             untitled loaded in
  events r = [EvRead untitled; EvAssignInProgress true;
              EvRenameFile untitled (lit "notes/hello.md") true;
              EvAssignInProgress false]
  /\ isRenameInProgress (final r) = false.
Proof. vm_compute. repeat split. Qed.

Section ChangeHandler.

Context {U : Unicode} {E : RegExpEngine}.

(** C2 (amended). The change handler does not read [isRenameInProgress]:
    for every file-change event and every settings, [handleRenameFile]
    and the [modify] listener make the same calls to the host, with the
    same outcome, in the state where the flag is set as in the state
    where it is not. *)
Theorem change_handler_ignores_flag (app : App) (file : TAbstractFile)
    (s : FilenameSlugHeadingSyncPluginSettings) :
  let idle := {| isRenameInProgress := false; settings := s |} in
  let in_flight := {| isRenameInProgress := true; settings := s |} in
  events (handleRenameFile app file in_flight)
    = events (handleRenameFile app file idle)
  /\ value (handleRenameFile app file in_flight)
     = value (handleRenameFile app file idle)
  /\ events (onModify app file in_flight) = events (onModify app file idle)
  /\ value (onModify app file in_flight) = value (onModify app file idle).
Proof.
  intros idle in_flight.
  assert (H : events (handleRenameFile app file in_flight)
              = events (handleRenameFile app file idle)
              /\ value (handleRenameFile app file in_flight)
                 = value (handleRenameFile app file idle)).
  { destruct file as [file|folder]; [|split; reflexivity].
    unfold handleRenameFile.
    destruct (negb (bool_decide (extension file = lit "md")));
      [split; reflexivity|].
    destruct (negb (bool_decide (getActiveFile app = Some file)));
      [split; reflexivity|].
    unfold mbind, Async_bind, this_fileIsIncluded. cbn [value final events].
    change (fileIsIncluded app in_flight file (path file))
      with (fileIsIncluded app idle file (path file)).
    destruct (fileIsIncluded app idle file (path file)) as [v|];
      [|split; reflexivity].
    destruct (negb (truthy v)); [split; reflexivity|].
    cbn [List.app]. apply forceRenameFile_events_any_state. }
  destruct H as [He Hv]. repeat split; try assumption.
  - unfold onModify, mbind, Async_bind, this_settings.
    cbn [value final events List.app]. subst idle in_flight.
    cbn [settings]. destruct (useFileSaveHook s); [exact He|reflexivity].
  - unfold onModify, mbind, Async_bind, this_settings.
    cbn [value final events List.app]. subst idle in_flight.
    cbn [settings]. destruct (useFileSaveHook s); [exact Hv|reflexivity].
Qed.

End ChangeHandler.

(** C2 (as stated). With the flag set, a change of the active, included
    note whose heading is "# Hello" is evaluated and the note renamed. *)
Lemma change_handler_renames_while_in_flight :
  let app := host (lit "# Hello") true in
  isRenameInProgress renaming = true
  /\ events (handleRenameFile (U := latin1) (E := literal_dot_star) app
               (AFile untitled) renaming)
     = [EvRead untitled; EvAssignInProgress true;
        EvRenameFile untitled (lit "notes/hello.md") true;
        EvAssignInProgress false]
  /\ renames (events (onModify (U := latin1) (E := literal_dot_star) app
                        (AFile untitled) renaming))
     = [(untitled, lit "notes/hello.md", true)]
  /\ renames (events (handleRenameFile (U := latin1) (E := literal_dot_star)
                        app (AFile untitled) renaming)) <> [].
Proof. vm_compute. repeat split. discriminate. Qed.

(** ** Headings without a slug *)

Section EmptySlug.

Local Open Scope N_scope.

Context {U : Unicode} {L : UnicodeLaws U}.

Lemma replace_class_all cls s :
  forallb cls s = true -> replace_class cls [] s = [].
Proof.
  induction s as [|c s IH]; simpl; [reflexivity|].
  intros [Hc Hs]%andb_true_iff. rewrite Hc. auto.
Qed.

Lemma slugify_punctuation t :
  forallb punctuation_but_hyphen t = true -> slugify t = [].
Proof.
  intros Hp. unfold slugify.
  assert (Ha : forallb is_ascii t = true).
  { revert Hp. apply forallb_impl. intros c Hc.
    unfold punctuation_but_hyphen, is_ascii_punctuation in Hc. char_lia. }
  assert (Hw : forallb (fun c => negb (isWhiteSpace c)) t = true).
  { revert Hp. apply forallb_impl. intros c Hc.
    unfold punctuation_but_hyphen, is_ascii_punctuation in Hc. char_lia. }
  rewrite (normalize_ascii NFKD t Ha).
  rewrite (replace_class_none is_combining_mark [] t).
  2:{ revert Hp. apply forallb_impl. intros c Hc.
      unfold punctuation_but_hyphen, is_ascii_punctuation in Hc. char_lia. }
  rewrite (trim_none t Hw), (toLowerCase_ascii t Ha).
  rewrite replace_class_all; [reflexivity|].
  clear Ha Hw. induction t as [|c t IH]; simpl in *; [reflexivity|].
  apply andb_true_iff in Hp as [Hc Hp]. rewrite IH, andb_true_r by exact Hp.
  unfold punctuation_but_hyphen, is_ascii_punctuation in Hc. char_lia.
Qed.

(** C3 (amended). A heading text made of ASCII punctuation other than the
    hyphen has the empty slug, and [forceRenameFile] on a document whose
    first heading has such a text calls no rename and leaves the plugin
    as it was, whatever the file is called. *)
Theorem punctuation_heading_no_rename (t : jsstring) (app : App)
    (file : TFile) (this : Plugin) (data : jsstring) (h : LinePointer) :
  forallb punctuation_but_hyphen t = true ->
  vault_read app file = Some data ->
  findHeading (split 0x0A data) (findNoteStart (split 0x0A data)) = Some h ->
  text h = t ->
  slugify t = []
  /\ renames (events (forceRenameFile app file this)) = []
  /\ final (forceRenameFile app file this) = this.
Proof.
  intros Hp Hr Hh Ht. pose proof (slugify_punctuation t Hp) as Hs.
  split; [exact Hs|].
  rewrite forceRenameFile_run, Hr. unfold rename_target.
  rewrite Hh, Ht, Hs. cbn. split; reflexivity.
Qed.

End EmptySlug.

Lemma punctuation_heading_no_rename_witness :
  let r := forceRenameFile (U := latin1) (host (lit "# !!!") true)
             untitled loaded in
  slugify (U := latin1) (lit "!!!") = []
  /\ renames (events r) = []
  /\ final r = loaded.
Proof.
  apply (@punctuation_heading_no_rename latin1 latin1_laws (lit "!!!")
           (host (lit "# !!!") true) untitled loaded (lit "# !!!")
           {| lineNumber := 0; text := lit "!!!"; style := Prefix |});
    reflexivity.
Defined.

(** C3 (as stated). The heading "---" is punctuation only, its slug is
    "-", and the note is renamed to "-.md". *)
Lemma hyphens_heading_is_renamed :
  let r := forceRenameFile (U := latin1) (host (lit "# ---") true)
             untitled loaded in
  forallb is_ascii_punctuation (lit "---") = true
  /\ slugify (U := latin1) (lit "---") = lit "-"
  /\ slugify (U := latin1) (lit "---") <> []
  /\ renames (events r) = [(untitled, lit "notes/-.md", true)]
  /\ renames (events r) <> [].
Proof. vm_compute. repeat split; discriminate. Qed.

(** C4 (amended). [slugify] is a function of its argument, and the slug
    of "Café — Déjà Vu" is "cafe-deja-vu". *)
Theorem slugify_deterministic_cafe :
  (forall (U : Unicode) (x : jsstring), slugify x = slugify x)
  /\ slugify (U := latin1) cafe_deja_vu = lit "cafe-deja-vu".
Proof. split; [reflexivity|vm_compute; reflexivity]. Qed.

(** C4 (as stated). The slug of "Café — Déjà Vu" is not "caf-deja-vu". *)
Lemma slugify_cafe_keeps_e :
  slugify (U := latin1) cafe_deja_vu <> lit "caf-deja-vu".
Proof. vm_compute. discriminate. Qed.

(** ** Two evaluations in a row *)

Section Twice.

Context {U : Unicode} {L : UnicodeLaws U}.

(** Once the file is called by the slug of its heading there is nothing
    to rename: [file'] is a file whose basename is the one the path
    [forceRenameFile] asked for names. *)
Lemma rename_target_after_rename (file file' : TFile) (data newPath : jsstring) :
  rename_target file data = Some newPath ->
  newPath = parent_path file ++ lit "/" ++ basename file' ++ lit ".md" ->
  rename_target file' data = None.
Proof.
  unfold rename_target.
  destruct (findHeading _ _) as [heading|]; [|discriminate].
  set (slug := slugify (text heading)).
  destruct ((0 <? length slug)%nat
            && negb (bool_decide (slugify (basename file) = slug)));
    [|discriminate].
  intros H Hnew.
  assert (newPath = parent_path file ++ lit "/" ++ slug ++ lit ".md")
    as Hslug by congruence.
  rewrite Hslug in Hnew. clear H Hslug.
  apply app_inv_head, app_inv_head, app_inv_tail in Hnew.
  rewrite <- Hnew.
  rewrite (slugify_fixed slug)
    by (apply slugify_units || apply slugify_no_adjacent).
  rewrite bool_decide_eq_true_2 by reflexivity.
  cbn [negb]. rewrite andb_false_r. reflexivity.
Qed.

(** C9 (amended). Two evaluations of [forceRenameFile] in a row on an
    unchanged document, the second on the file as the host has left it
    when the first has settled: [file'] is [file] itself unless the first
    rename was fulfilled, and then its basename is the one the new path
    names. At most one rename takes effect; when the first evaluation's
    rename, if it called one, was not rejected, the second evaluation
    calls no rename; after a rejected rename the second evaluation calls
    the rename again, on the same file and to the same path. *)
Theorem forceSync_twice (app1 app2 : App) (file file' : TFile)
    (this : Plugin) :
  let r1 := forceRenameFile app1 file this in
  let r2 := forceRenameFile app2 file' (final r1) in
  vault_read app2 file' = vault_read app1 file ->
  (forall g p, (g, p, true) ∈ renames (events r1) ->
     p = parent_path file ++ lit "/" ++ basename file' ++ lit ".md") ->
  ((forall g p, (g, p, true) ∉ renames (events r1)) -> file' = file) ->
  length (fulfilled_renames (events r1 ++ events r2)) <= 1
  /\ ((forall g p, (g, p, false) ∉ renames (events r1)) ->
      renames (events r2) = [])
  /\ (forall g p, (g, p, false) ∈ renames (events r1) ->
        renames (events r2) = [(file, p, renameFile_fulfils app2 file p)]).
Proof.
  intros r1 r2 Hsame Hmoved Hkept. subst r2 r1.
  rewrite !forceRenameFile_run in *.
  destruct (vault_read app1 file) as [data|] eqn:Hread.
  2:{ cbn [events final] in *.
      assert (file' = file) as -> by (apply Hkept; intros g p H; inversion H).
      rewrite Hsame. split; [vm_compute; lia|]. split; [reflexivity|].
      intros g p H. inversion H. }
  destruct (rename_target file data) as [newPath|] eqn:Ht.
  2:{ cbn [events final] in *.
      assert (file' = file) as -> by (apply Hkept; intros g p H; inversion H).
      rewrite Hsame, Ht. split; [vm_compute; lia|]. split; [reflexivity|].
      intros g p H. inversion H. }
  destruct (renameFile_fulfils app1 file newPath) eqn:Hok.
  - cbn [events final] in *.
    assert (Hnew : newPath = parent_path file ++ lit "/" ++ basename file'
                             ++ lit ".md").
    { apply (Hmoved file). cbn. left. }
    rewrite Hsame, (rename_target_after_rename file file' data newPath Ht Hnew).
    split; [vm_compute; lia|]. split; [reflexivity|].
    intros g p H. cbn in H. apply list_elem_of_singleton in H. discriminate H.
  - cbn [events final] in *.
    assert (file' = file) as ->.
    { apply Hkept. intros g p H. cbn in H. apply list_elem_of_singleton in H.
      discriminate H. }
    rewrite Hsame, Ht. split; [|split].
    + destruct (renameFile_fulfils app2 file newPath); vm_compute; lia.
    + intros Hnone. exfalso. apply (Hnone file newPath). cbn. left.
    + intros g p H. cbn in H. apply list_elem_of_singleton in H.
      assert (p = newPath) as -> by congruence.
      destruct (renameFile_fulfils app2 file newPath); reflexivity.
Qed.

End Twice.

Lemma forceSync_twice_witness :
  let app := host (lit "# Hello") true in
  let r1 := forceRenameFile (U := latin1) app untitled loaded in
  let r2 := forceRenameFile (U := latin1) app hello_note (final r1) in
  renames (events r1) = [(untitled, lit "notes/hello.md", true)]
  /\ length (fulfilled_renames (events r1 ++ events r2)) <= 1
  /\ renames (events r2) = [].
Proof.
  intros app r1 r2.
  assert (Hr1 : renames (events r1) = [(untitled, lit "notes/hello.md", true)])
    by reflexivity.
  split; [exact Hr1|].
  destruct (@forceSync_twice latin1 latin1_laws app app untitled hello_note
              loaded eq_refl) as (H1 & H2 & _).
  - intros g p H. fold r1 in H. rewrite Hr1 in H.
    apply list_elem_of_singleton in H. injection H as _ ->. reflexivity.
  - intros Hnone. exfalso. apply (Hnone untitled (lit "notes/hello.md")).
    fold r1. rewrite Hr1. apply list_elem_of_singleton. reflexivity.
  - split; [exact H1|]. apply H2. intros g p H. fold r1 in H.
    rewrite Hr1 in H. apply list_elem_of_singleton in H. discriminate H.
Defined.

(** C9 (as stated). The host rejects the first rename of "Untitled" to
    "hello": the file and the document are as they were and the second
    evaluation calls the rename again. *)
Lemma second_forceSync_renames_after_rejection :
  let rejecting := host (lit "# Hello") false in
  let fulfilling := host (lit "# Hello") true in
  let r1 := forceRenameFile (U := latin1) rejecting untitled loaded in
  let r2 := forceRenameFile (U := latin1) fulfilling untitled (final r1) in
  vault_read fulfilling untitled = vault_read rejecting untitled
  /\ renames (events r1) = [(untitled, lit "notes/hello.md", false)]
  /\ renames (events r2) = [(untitled, lit "notes/hello.md", true)]
  /\ renames (events r2) <> [].
Proof. vm_compute. repeat split. discriminate. Qed.

(** * Further properties of the code *)

(** ** The controller *)

Section ControllerExtras.

Context {U : Unicode} {E : RegExpEngine}.

Lemma run_eta {A} (r : Run A) :
  {| value := value r; final := final r; events := events r |} = r.
Proof. destruct r; reflexivity. Qed.

(** The gates of the [modify] listener: the save hook is enabled, the
    file is a note ([md]), it is the active file, and [fileIsIncluded]
    returns a true-like value for it. *)
Lemma modify_listener_passes (app : App) (f : TFile) (v : jsvalue)
    (this : Plugin) :
  useFileSaveHook (settings this) = true ->
  extension f = lit "md" ->
  getActiveFile app = Some f ->
  fileIsIncluded app this f (path f) = Returned v -> truthy v = true ->
  onModify app (AFile f) this = forceRenameFile app f this.
Proof.
  intros Hhook Hext Hact Hinc Hv.
  unfold onModify, mbind, Async_bind, this_settings. cbn [value final events].
  rewrite Hhook. unfold handleRenameFile.
  rewrite (bool_decide_eq_true_2 _ Hext), (bool_decide_eq_true_2 _ Hact).
  cbn [negb]. unfold mbind, Async_bind, this_fileIsIncluded.
  cbn [value final events]. rewrite Hinc, Hv.
  cbn [negb value final events List.app]. apply run_eta.
Qed.

(** X1. The [modify] listener reaches the vault exactly when the save
    hook is enabled and the changed file is a note ([md]), is the active
    file and is included: when these hold its run is the run of
    [forceRenameFile] on that file, which reads the file; when one of
    them fails it makes no call at all. *)
Theorem modify_listener_gated (app : App) (file : TAbstractFile)
    (this : Plugin) :
  let gates f v :=
    useFileSaveHook (settings this) = true
    /\ file = AFile f /\ extension f = lit "md"
    /\ getActiveFile app = Some f
    /\ fileIsIncluded app this f (path f) = Returned v /\ truthy v = true in
  (forall f v, gates f v ->
     onModify app file this = forceRenameFile app f this
     /\ exists rest, events (onModify app file this) = EvRead f :: rest)
  /\ (events (onModify app file this) <> [] -> exists f v, gates f v)
  /\ ((forall f v, ~ gates f v) -> events (onModify app file this) = []).
Proof.
  intros gates.
  assert (Hif : forall f v, gates f v ->
            onModify app file this = forceRenameFile app f this).
  { intros f v (Hhook & -> & Hext & Hact & Hinc & Hv).
    apply (modify_listener_passes app f v this); assumption. }
  assert (Honly : events (onModify app file this) <> [] ->
                  exists f v, gates f v).
  { unfold onModify, mbind, Async_bind, this_settings.
    cbn [value final events]. subst gates. cbn beta.
    destruct (useFileSaveHook (settings this)); [|intros []; reflexivity].
    cbn [List.app]. intros Hev.
    destruct file as [f|folder]; [|destruct Hev; reflexivity].
    unfold handleRenameFile in *.
    case_bool_decide as Hext; cbn [negb] in *; [|destruct Hev; reflexivity].
    case_bool_decide as Hact; cbn [negb] in *; [|destruct Hev; reflexivity].
    unfold mbind, Async_bind, this_fileIsIncluded in *.
    cbn [value final events] in *.
    destruct (fileIsIncluded app this f (path f)) as [v|] eqn:Hinc;
      [|destruct Hev; reflexivity].
    destruct (truthy v) eqn:Hv; cbn [negb] in *; [|destruct Hev; reflexivity].
    exists f, v. repeat split; assumption. }
  split; [|split].
  - intros f v Hg. split; [apply (Hif f v Hg)|].
    rewrite (Hif f v Hg), forceRenameFile_run.
    destruct (vault_read app f) as [data|]; [|eexists; reflexivity].
    destruct (rename_target f data) as [p|]; [|eexists; reflexivity].
    destruct (renameFile_fulfils app f p); eexists; reflexivity.
  - exact Honly.
  - intros Hnone.
    destruct (events (onModify app file this)) as [|e l] eqn:He;
      [reflexivity|].
    destruct Honly as (f & v & Hg); [discriminate|].
    destruct (Hnone f v Hg).
Qed.

(** X2. No evaluation of the controller changes the settings. *)
Theorem controller_keeps_settings (app : App) (file : TAbstractFile)
    (f : TFile) (this : Plugin) :
  settings (final (forceRenameFile app f this)) = settings this
  /\ settings (final (handleRenameFile app file this)) = settings this
  /\ settings (final (onModify app file this)) = settings this.
Proof.
  assert (Hf : forall f, settings (final (forceRenameFile app f this))
                         = settings this).
  { intros g. rewrite forceRenameFile_run.
    destruct (vault_read app g) as [data|]; [|reflexivity].
    destruct (rename_target g data) as [p|]; [|reflexivity].
    destruct (renameFile_fulfils app g p); reflexivity. }
  assert (Hh : settings (final (handleRenameFile app file this))
               = settings this).
  { destruct file as [g|folder]; [|reflexivity]. unfold handleRenameFile.
    destruct (negb _); [reflexivity|]. destruct (negb _); [reflexivity|].
    unfold mbind, Async_bind, this_fileIsIncluded. cbn [value final events].
    destruct (fileIsIncluded app this g (path g)) as [v|]; [|reflexivity].
    destruct (negb (truthy v)); [reflexivity|]. apply Hf. }
  split; [apply Hf|]. split; [exact Hh|].
  unfold onModify, mbind, Async_bind, this_settings. cbn [value final events].
  destruct (useFileSaveHook (settings this)); [exact Hh|reflexivity].
Qed.

(** X3. An evaluation of [forceRenameFile] begins by reading the file
    and reads nothing else; it calls the external rename at most once,
    on the file it was given; when the read is rejected nothing follows
    and the plugin object is as it was. *)
Theorem forceRenameFile_protocol (app : App) (file : TFile) (this : Plugin) :
  let r := forceRenameFile app file this in
  (exists rest, events r = EvRead file :: rest
                /\ forall g, EvRead g ∉ rest)
  /\ length (renames (events r)) <= 1
  /\ (forall g p ok, (g, p, ok) ∈ renames (events r) ->
        g = file /\ ok = renameFile_fulfils app file p)
  /\ (vault_read app file = None ->
        events r = [EvRead file] /\ final r = this /\ value r = None).
Proof.
  intros r. subst r. rewrite forceRenameFile_run.
  destruct (vault_read app file) as [data|].
  2:{ repeat split; try (cbn; lia).
      - exists []. split; [reflexivity|]. intros g Hg. inversion Hg.
      - cbn in H. inversion H.
      - cbn in H. inversion H. }
  destruct (rename_target file data) as [p|].
  2:{ repeat split; try (cbn; lia); try discriminate.
      - exists []. split; [reflexivity|]. intros g Hg. inversion Hg.
      - cbn in H. inversion H.
      - cbn in H. inversion H. }
  destruct (renameFile_fulfils app file p) eqn:Hok.
  - repeat split; try (cbn; lia); try discriminate.
    + eexists. split; [reflexivity|]. intros g Hg.
      repeat (apply elem_of_cons in Hg as [Hg|Hg]; [discriminate|]).
      inversion Hg.
    + cbn in H. apply list_elem_of_singleton in H. congruence.
    + cbn in H. apply list_elem_of_singleton in H. congruence.
  - repeat split; try (cbn; lia); try discriminate.
    + eexists. split; [reflexivity|]. intros g Hg.
      repeat (apply elem_of_cons in Hg as [Hg|Hg]; [discriminate|]).
      inversion Hg.
    + cbn in H. apply list_elem_of_singleton in H. congruence.
    + cbn in H. apply list_elem_of_singleton in H. congruence.
Qed.

End ControllerExtras.

Lemma modify_listener_gated_witness :
  let app := host (lit "# Hello") true in
  let listener :=
    onModify (U := latin1) (E := literal_dot_star) app (AFile untitled)
      renaming in
  fileIsIncluded (E := literal_dot_star) app renaming untitled (path untitled)
  = Returned (JBool true)
  /\ listener = forceRenameFile (U := latin1) app untitled renaming
  /\ exists rest, events listener = EvRead untitled :: rest.
Proof.
  intros app listener. split; [reflexivity|].
  destruct (@modify_listener_gated latin1 literal_dot_star app
              (AFile untitled) renaming) as (Hif & _ & _).
  apply (Hif untitled (JBool true)). repeat split.
Defined.

(** ** Where a note is renamed to *)

Section RenameTarget.

Local Open Scope N_scope.

Context {U : Unicode}.

Lemma rename_target_shape (file : TFile) (data newPath : jsstring) :
  rename_target file data = Some newPath ->
  exists slug,
    newPath = parent_path file ++ lit "/" ++ slug ++ lit ".md"
    /\ slug <> []
    /\ forallb is_slug_unit slug = true
    /\ no_adjacent_hyphens slug = true
    /\ slug <> slugify (basename file).
Proof.
  unfold rename_target.
  destruct (findHeading _ _) as [heading|]; [|discriminate].
  set (slug := slugify (text heading)).
  destruct (0 <? length slug)%nat eqn:Hlen; [|discriminate].
  case_bool_decide as Hne; [discriminate|]. cbn [andb negb].
  intros H. exists slug.
  split; [congruence|]. split.
  { intros Hnil. rewrite Hnil in Hlen. discriminate. }
  split; [apply slugify_units|]. split; [apply slugify_no_adjacent|].
  congruence.
Qed.

(** X4. When [forceRenameFile] calls the external rename, the new path is
    in the folder of the file, and its name is a slug followed by ".md":
    the slug is not empty, is made of [a-z], [0-9] and hyphens without
    two hyphens in a row, and is not the slug of the present basename. *)
Theorem renames_go_to_a_slug_in_the_folder (app : App) (file : TFile)
    (this : Plugin) (g : TFile) (newPath : jsstring) (ok : bool) :
  (g, newPath, ok) ∈ renames (events (forceRenameFile app file this)) ->
  exists slug,
    newPath = parent_path file ++ lit "/" ++ slug ++ lit ".md"
    /\ slug <> []
    /\ forallb is_slug_unit slug = true
    /\ no_adjacent_hyphens slug = true
    /\ slug <> slugify (basename file).
Proof.
  rewrite forceRenameFile_run.
  destruct (vault_read app file) as [data|]; [|intros H; inversion H].
  destruct (rename_target file data) as [p|] eqn:Ht; [|intros H; inversion H].
  intros H. apply (rename_target_shape file data). rewrite Ht. f_equal.
  destruct (renameFile_fulfils app file p); cbn in H;
    apply list_elem_of_singleton in H; congruence.
Qed.

End RenameTarget.

Lemma renames_go_to_a_slug_in_the_folder_witness :
  let r := forceRenameFile (U := latin1) (host (lit "# Hello") true)
             untitled loaded in
  (untitled, lit "notes/hello.md", true) ∈ renames (events r)
  /\ exists slug,
       lit "notes/hello.md"
       = parent_path untitled ++ lit "/" ++ slug ++ lit ".md"
       /\ slug <> []
       /\ forallb is_slug_unit slug = true
       /\ no_adjacent_hyphens slug = true
       /\ slug <> slugify (U := latin1) (basename untitled).
Proof.
  assert (H : (untitled, lit "notes/hello.md", true)
              ∈ renames (events (forceRenameFile (U := latin1)
                                   (host (lit "# Hello") true) untitled
                                   loaded))).
  { change (renames _) with [(untitled, lit "notes/hello.md", true)].
    apply list_elem_of_singleton. reflexivity. }
  split; [exact H|].
  exact (@renames_go_to_a_slug_in_the_folder latin1
           (host (lit "# Hello") true) untitled loaded untitled
           (lit "notes/hello.md") true H).
Defined.

(** ** Settings the controller reads, and settings it does not *)

Section SettingsEffect.

Context {U : Unicode} {E : RegExpEngine}.

(** X6. With the settings of a first start (no data file), a change of a
    file that the other rule system does not exclude does nothing: the
    plugin is opt-in. (The path is not a property name that every object
    inherits, such as "constructor".) *)
Theorem first_start_is_opt_in (app : App) (f : TFile) :
  isExcluded app f = false ->
  path f ∉ Object_prototype_keys ->
  onModify app (AFile f) (onload None)
  = {| value := Some tt; final := onload None; events := [] |}.
Proof.
  intros Hx Hp.
  unfold onModify, mbind, Async_bind, this_settings. cbn [value final events].
  change (useFileSaveHook (settings (onload None))) with true. cbn iota.
  unfold handleRenameFile.
  destruct (negb (bool_decide (extension f = lit "md"))); [reflexivity|].
  destruct (negb (bool_decide (getActiveFile app = Some f))); [reflexivity|].
  unfold mbind, Async_bind, this_fileIsIncluded. cbn [value final events].
  rewrite fileIsIncluded_empty_regex; [reflexivity|exact Hx| |reflexivity].
  unfold get_is_defined. cbn [onload loadSettings settings
    Object_assign_settings DEFAULT_SETTINGS includedFiles].
  rewrite lookup_empty, (bool_decide_eq_false_2 _ Hp).
  rewrite bool_decide_eq_false_2; [reflexivity|].
  intros [x Hx']. discriminate.
Qed.

(** X7. The setting [useFileOpenHook] is read by nothing: whatever its
    value, the inclusion policy answers the same, and the [modify]
    listener and [forceRenameFile] make the same calls with the same
    outcome. *)
Theorem useFileOpenHook_has_no_effect (app : App) (file : TAbstractFile)
    (f : TFile) (p : jsstring) (on : bool) (this : Plugin) :
  let this' := ui_final (useFileOpenHook_onChange on this) in
  fileIsIncluded app this' f p = fileIsIncluded app this f p
  /\ events (onModify app file this') = events (onModify app file this)
  /\ value (onModify app file this') = value (onModify app file this)
  /\ events (forceRenameFile app f this') = events (forceRenameFile app f this)
  /\ value (forceRenameFile app f this') = value (forceRenameFile app f this).
Proof.
  intros this'.
  assert (Hinc : forall g q,
            fileIsIncluded app this' g q = fileIsIncluded app this g q)
    by reflexivity.
  split; [apply Hinc|].
  assert (Hh : events (handleRenameFile app file this')
               = events (handleRenameFile app file this)
               /\ value (handleRenameFile app file this')
                  = value (handleRenameFile app file this)).
  { destruct file as [g|folder]; [|split; reflexivity].
    unfold handleRenameFile.
    destruct (negb (bool_decide (extension g = lit "md")));
      [split; reflexivity|].
    destruct (negb (bool_decide (getActiveFile app = Some g)));
      [split; reflexivity|].
    unfold mbind, Async_bind, this_fileIsIncluded. cbn [value final events].
    rewrite Hinc.
    destruct (fileIsIncluded app this g (path g)) as [v|];
      [|split; reflexivity].
    destruct (negb (truthy v)); [split; reflexivity|].
    cbn [List.app]. apply forceRenameFile_events_any_state. }
  destruct Hh as [He Hv].
  unfold onModify, mbind, Async_bind, this_settings.
  cbn [value final events List.app].
  change (useFileSaveHook (settings this'))
    with (useFileSaveHook (settings this)).
  destruct (useFileSaveHook (settings this)).
  - repeat split; try assumption; apply forceRenameFile_events_any_state.
  - repeat split; apply forceRenameFile_events_any_state.
Qed.

(** X8. When the toggle "Use File Save Hook" is switched off, the
    settings saved have it off, a change of any file does nothing, and
    the command "Slugify Heading as Filename" still evaluates the file as
    before. *)
Theorem save_hook_off_leaves_the_command (app : App) (file : TAbstractFile)
    (f : TFile) (this : Plugin) :
  let r := useFileSaveHook_onChange false this in
  ui_saved r = [settings (ui_final r)]
  /\ useFileSaveHook (settings (ui_final r)) = false
  /\ onModify app file (ui_final r)
     = {| value := Some tt; final := ui_final r; events := [] |}
  /\ events (slugify_heading_as_filename app f (ui_final r))
     = events (slugify_heading_as_filename app f this)
  /\ value (slugify_heading_as_filename app f (ui_final r))
     = value (slugify_heading_as_filename app f this).
Proof.
  intros r. repeat split; apply forceRenameFile_events_any_state.
Qed.

End SettingsEffect.

Lemma first_start_is_opt_in_witness :
  let app := host (lit "# Hello") true in
  isExcluded app untitled = false
  /\ onModify (U := latin1) (E := literal_dot_star) app (AFile untitled)
       (onload None)
     = {| value := Some tt; final := onload None; events := [] |}.
Proof.
  split; [reflexivity|].
  apply (@first_start_is_opt_in latin1 literal_dot_star
           (host (lit "# Hello") true) untitled); [reflexivity|].
  refine (bool_decide_unpack (path untitled ∉ Object_prototype_keys) _).
  vm_compute. exact I.
Defined.

(** ** The inclusion policy and the settings surface *)

Section InclusionExtras.

Context {E : RegExpEngine}.

Lemma fileIsIncluded_try_regex_includes
    (s : FilenameSlugHeadingSyncPluginSettings) (p : jsstring) :
  fileIsIncluded_try s p = Returned (JBool true) <-> regex_includes s p = true.
Proof.
  unfold fileIsIncluded_try, regex_includes.
  case_bool_decide; cbn [negb andb]; [split; discriminate|].
  destruct (new_RegExp (includeRegex s)) as [reg|]; [|split; discriminate].
  destruct (exec_matches reg p); split; congruence.
Qed.

Lemma fileIsIncluded_truthy (app : App) (this : Plugin) (f : TFile)
    (p : jsstring) :
  exists v,
    fileIsIncluded app this f p = Returned v
    /\ truthy v = isExcluded app f
                  || get_is_defined (includedFiles (settings this)) p
                  || regex_includes (settings this) p.
Proof.
  unfold fileIsIncluded, fileIsIncluded_try, regex_includes.
  destruct (isExcluded app f); [eexists; split; reflexivity|].
  destruct (get_is_defined _ p); [eexists; split; reflexivity|].
  case_bool_decide; [eexists; split; reflexivity|].
  destruct (new_RegExp _); eexists; split; reflexivity.
Qed.

(** X9. [fileIsIncluded] always returns, whatever the pattern is, and
    what it returns is true-like exactly when the other rule system
    excludes the file, or the path is a defined property of
    [includedFiles], or the pattern is not empty, compiles and matches
    the path. *)
Theorem fileIsIncluded_decision (app : App) (this : Plugin) (f : TFile)
    (p : jsstring) :
  (exists v, fileIsIncluded app this f p = Returned v)
  /\ forall v, fileIsIncluded app this f p = Returned v ->
       (truthy v = true
        <-> isExcluded app f = true
            \/ get_is_defined (includedFiles (settings this)) p = true
            \/ (includeRegex (settings this) <> []
                /\ exists reg, new_RegExp (includeRegex (settings this))
                               = Some reg
                               /\ exec_matches reg p = true)).
Proof.
  destruct (fileIsIncluded_truthy app this f p) as (v & Hv & Ht).
  split; [exists v; exact Hv|]. intros v' Hv'.
  assert (v' = v) as -> by congruence. rewrite Ht, !orb_true_iff.
  assert (Hr : regex_includes (settings this) p = true
               <-> includeRegex (settings this) <> []
                   /\ exists reg, new_RegExp (includeRegex (settings this))
                                  = Some reg
                                  /\ exec_matches reg p = true).
  { unfold regex_includes. case_bool_decide as He; cbn [negb andb].
    - split; [discriminate|]. intros [Hne _]. contradiction.
    - destruct (new_RegExp _) as [reg|].
      + split; [intros Hm; split; [exact He|eauto]|].
        intros (_ & reg' & [= <-] & Hm). exact Hm.
      + split; [discriminate|]. intros (_ & reg' & [=] & _). }
  rewrite Hr. tauto.
Qed.

(** X10. Executed with an active file, the command "Include current
    file" returns [true], saves the settings it leaves, and from then on
    [fileIsIncluded] answers [true] for the path of that file, on any
    host; the answer for every other path, the pattern and the two hooks
    are as before. *)
Theorem include_current_file_includes (app : App) (this : Plugin) (f : TFile) :
  getActiveFile app = Some f ->
  path f <> lit "__proto__" ->
  let r := include_current_file app true false this in
  ui_value r = Returned true
  /\ ui_saved r = [settings (ui_final r)]
  /\ (forall app' g,
        fileIsIncluded app' (ui_final r) g (path f) = Returned (JBool true))
  /\ (forall app' g p, p <> path f ->
        fileIsIncluded app' (ui_final r) g p = fileIsIncluded app' this g p)
  /\ includeRegex (settings (ui_final r)) = includeRegex (settings this)
  /\ useFileOpenHook (settings (ui_final r)) = useFileOpenHook (settings this)
  /\ useFileSaveHook (settings (ui_final r)) = useFileSaveHook (settings this)
  /\ isRenameInProgress (ui_final r) = isRenameInProgress this.
Proof.
  intros Hf _ r. subst r. unfold include_current_file. rewrite Hf.
  cbn [negb ui_value ui_saved ui_final].
  repeat split.
  - intros app' g. unfold fileIsIncluded.
    destruct (isExcluded app' g); [reflexivity|].
    unfold get_is_defined, assign_includedFile. cbn [settings includedFiles].
    rewrite lookup_insert_eq.
    rewrite bool_decide_eq_true_2 by (eexists; reflexivity). reflexivity.
  - intros app' g p Hp. unfold fileIsIncluded, get_is_defined.
    unfold assign_includedFile. cbn [settings includedFiles].
    rewrite lookup_insert_ne by congruence. reflexivity.
Qed.

(** X11. The command "Include current file" touches the settings only
    when it is executed with an active leaf and an active file: when it
    is only checked, or there is no leaf, nothing changes and it returns
    whether there is a leaf; executed with a leaf but without an active
    file it throws, and nothing is changed or saved. *)
Theorem include_current_file_guards (app : App) (activeLeaf checking : bool)
    (this : Plugin) :
  let r := include_current_file app activeLeaf checking this in
  (ui_saved r <> [] ->
     activeLeaf = true /\ checking = false /\ is_Some (getActiveFile app))
  /\ (ui_saved r = [] -> ui_final r = this)
  /\ (checking = true \/ activeLeaf = false -> ui_value r = Returned activeLeaf)
  /\ (activeLeaf = true -> checking = false -> getActiveFile app = None ->
        ui_value r = Thrown).
Proof.
  intros r. subst r. unfold include_current_file.
  destruct activeLeaf, checking, (getActiveFile app) as [f|];
    cbn [negb ui_value ui_saved ui_final];
    repeat split; try congruence; try (intros []; congruence);
    try (eexists; reflexivity); try discriminate.
Qed.

(** X12. The "Delete" button saves the settings it leaves, in which the
    key is no longer stored; a path that is not excluded by the other
    rule system (and is not an inherited property name) is then included
    exactly when the regex rule includes it, and the answers for the
    other paths are as before. *)
Theorem delete_included_file_leaves_the_regex (app : App) (this : Plugin)
    (f : TFile) (key : jsstring) :
  isExcluded app f = false ->
  key ∉ Object_prototype_keys ->
  let r := delete_included_file key this in
  ui_saved r = [settings (ui_final r)]
  /\ includedFiles (settings (ui_final r)) !! key = None
  /\ (exists v, fileIsIncluded app (ui_final r) f key = Returned v
                /\ truthy v = regex_includes (settings this) key)
  /\ (forall g p, p <> key ->
        fileIsIncluded app (ui_final r) g p = fileIsIncluded app this g p).
Proof.
  intros Hx Hk r. subst r. unfold delete_included_file.
  cbn [ui_value ui_saved ui_final]. split; [reflexivity|].
  split; [apply lookup_delete_eq|]. split.
  - destruct (fileIsIncluded_truthy app (delete_includedFile key this) f key)
      as (v & Hv & Ht).
    exists v. split; [exact Hv|]. rewrite Ht, Hx. unfold get_is_defined.
    unfold delete_includedFile at 1. cbn [settings includedFiles].
    rewrite (bool_decide_eq_false_2 _ Hk).
    rewrite bool_decide_eq_false_2; [reflexivity|].
    intros [x Hx']. rewrite lookup_delete_eq in Hx'. discriminate.
  - intros g p Hp. unfold fileIsIncluded, get_is_defined, delete_includedFile.
    cbn [settings includedFiles].
    rewrite lookup_delete_ne by congruence. reflexivity.
Qed.

End InclusionExtras.

(** X13. Including a file that was not stored and deleting it again
    gives back the plugin object there was. *)
Theorem include_then_delete (app : App) (this : Plugin) (f : TFile) :
  getActiveFile app = Some f ->
  path f <> lit "__proto__" ->
  includedFiles (settings this) !! path f = None ->
  ui_final (delete_included_file (path f)
              (ui_final (include_current_file app true false this)))
  = this.
Proof.
  intros Hf _ Hnone. unfold include_current_file. rewrite Hf.
  cbn [negb ui_final delete_included_file].
  destruct this as [flag [regex files openh saveh]].
  unfold delete_includedFile, assign_includedFile.
  cbn [settings includedFiles isRenameInProgress includeRegex useFileOpenHook
         useFileSaveHook] in *.
  rewrite delete_insert_eq, delete_id by exact Hnone. reflexivity.
Qed.

Lemma include_current_file_includes_witness :
  let app := host (lit "# Hello") true in
  let r := include_current_file app true false loaded in
  getActiveFile app = Some untitled
  /\ ui_value r = Returned true
  /\ ui_saved r = [settings (ui_final r)]
  /\ fileIsIncluded (E := literal_dot_star) app (ui_final r) untitled
       (path untitled) = Returned (JBool true).
Proof.
  intros app r. split; [reflexivity|].
  destruct (@include_current_file_includes literal_dot_star app loaded
              untitled eq_refl) as (Hv & Hs & Hi & _).
  { vm_compute. discriminate. }
  split; [exact Hv|]. split; [exact Hs|]. apply Hi.
Defined.

Lemma delete_included_file_leaves_the_regex_witness :
  let app := host (lit "# Hello") true in
  let r := delete_included_file (path untitled) including_untitled in
  includedFiles (settings including_untitled) !! path untitled = Some tt
  /\ fileIsIncluded (E := literal_dot_star) app including_untitled untitled
       (path untitled) = Returned (JBool true)
  /\ ui_final r <> including_untitled
  /\ includedFiles (settings (ui_final r)) !! path untitled = None
  /\ exists v,
       fileIsIncluded (E := literal_dot_star) app (ui_final r) untitled
         (path untitled) = Returned v
       /\ truthy v = regex_includes (E := literal_dot_star)
                       (settings including_untitled) (path untitled)
       /\ truthy v = false.
Proof.
  intros app r.
  destruct (@delete_included_file_leaves_the_regex literal_dot_star app
              including_untitled untitled (path untitled) eq_refl)
    as (_ & Hn & (v & Hv & Ht) & _).
  { refine (bool_decide_unpack (path untitled ∉ Object_prototype_keys) _).
    vm_compute. exact I. }
  split; [reflexivity|]. split; [reflexivity|]. split.
  { intros Heq. apply (f_equal (fun this =>
      includedFiles (settings this) !! path untitled)) in Heq.
    fold r in Hn. rewrite Hn in Heq. discriminate Heq. }
  split; [exact Hn|]. exists v. split; [exact Hv|]. split; [exact Ht|].
  rewrite Ht. reflexivity.
Defined.

Lemma include_then_delete_witness :
  let app := host (lit "# Hello") true in
  ui_final (delete_included_file (path untitled)
              (ui_final (include_current_file app true false loaded)))
  = loaded.
Proof.
  apply (include_then_delete (host (lit "# Hello") true) loaded untitled).
  - reflexivity.
  - vm_compute. discriminate.
  - reflexivity.
Defined.

Section SettingTabExtras.

Context {E : RegExpEngine}.

(** X14. Whatever is typed in "Include Regex Rule", the pattern the
    settings are left with is the empty one or one that compiles, so the
    [try] of [fileIsIncluded] no longer throws; a value that compiles is
    stored as typed, a value that does not is replaced by the empty
    pattern and no file is listed; the settings left are the settings
    saved, and nothing but the pattern has changed. *)
Theorem includeRegex_onChange_valid_or_empty (files : list TFile)
    (value : jsstring) (this : Plugin) :
  let r := includeRegex_onChange files value this in
  let s' := settings (ui_final r) in
  ui_saved r = [s']
  /\ (includeRegex s' = [] \/ is_Some (new_RegExp (includeRegex s')))
  /\ (forall p, fileIsIncluded_try s' p <> Thrown)
  /\ (is_Some (new_RegExp value) -> includeRegex s' = value)
  /\ (new_RegExp value = None ->
        includeRegex s' = [] /\ ui_value r = Returned [])
  /\ includedFiles s' = includedFiles (settings this)
  /\ useFileOpenHook s' = useFileOpenHook (settings this)
  /\ useFileSaveHook s' = useFileSaveHook (settings this).
Proof.
  intros r s'. subst s' r. unfold includeRegex_onChange.
  cbn [ui_value ui_saved ui_final].
  destruct (new_RegExp value) as [reg|] eqn:Hv.
  - cbn [assign_includeRegex settings includeRegex includedFiles
           useFileOpenHook useFileSaveHook].
    repeat split; try discriminate.
    + right. rewrite Hv. eexists; reflexivity.
    + intros p. unfold fileIsIncluded_try. cbn [includeRegex].
      case_bool_decide; [discriminate|]. rewrite Hv. discriminate.
  - cbn [assign_includeRegex settings includeRegex includedFiles
           useFileOpenHook useFileSaveHook].
    repeat split; try discriminate.
    + left. reflexivity.
    + intros [x Hx]. discriminate.
Qed.

(** X15. The list "Included Files By Regex" of the settings tab shows,
    in the order of the vault, the paths of exactly the files that the
    regex rule of [fileIsIncluded] includes. *)
Theorem regex_list_is_the_regex_rule (files : list TFile)
    (s : FilenameSlugHeadingSyncPluginSettings) :
  renderRegexIncludedFiles files s
  = map path (List.filter (fun f => regex_includes s (path f)) files)
  /\ forall f, f ∈ files ->
       (path f ∈ renderRegexIncludedFiles files s
        <-> fileIsIncluded_try s (path f) = Returned (JBool true)).
Proof.
  assert (Heq : renderRegexIncludedFiles files s
                = map path (List.filter (fun f => regex_includes s (path f))
                              files)).
  { unfold renderRegexIncludedFiles, regex_includes.
    case_bool_decide; cbn [negb andb].
    - induction files as [|f files IH]; [reflexivity|exact IH].
    - destruct (new_RegExp (includeRegex s)) as [reg|]; [reflexivity|].
      induction files as [|f files IH]; [reflexivity|exact IH]. }
  split; [exact Heq|]. intros f Hf.
  rewrite fileIsIncluded_try_regex_includes, Heq. split.
  - intros Hin. apply list_elem_of_In, in_map_iff in Hin as (g & Hg & Hin).
    apply filter_In in Hin as [_ Hin]. rewrite Hg in Hin. exact Hin.
  - intros Hr. apply list_elem_of_In, in_map_iff. exists f.
    split; [reflexivity|]. apply filter_In. split; [|exact Hr].
    apply list_elem_of_In, Hf.
Qed.

End SettingTabExtras.

(** ** The slug of a text of Basic Latin *)

Section AsciiSlug.

Local Open Scope N_scope.

Context {U : Unicode} {L : UnicodeLaws U}.

Implicit Types (p q cls : code_unit -> bool) (s t r : jsstring).

Lemma forallb_dropWhile p q s :
  forallb p s = true -> forallb p (dropWhile q s) = true.
Proof.
  induction s as [|c s IH]; simpl; [reflexivity|].
  intros H. destruct (q c); [|exact H].
  apply andb_true_iff in H as [_ H]. auto.
Qed.

Lemma forallb_trim p s : forallb p s = true -> forallb p (trim s) = true.
Proof.
  intros H. unfold trim, trimEnd, trimStart.
  rewrite forallb_rev. apply forallb_dropWhile. rewrite forallb_rev.
  apply forallb_dropWhile, H.
Qed.

(** On Basic Latin the first four steps of [slugify] are [trim] and the
    ASCII lowercasing. *)
Lemma slugify_ascii s :
  forallb is_ascii s = true ->
  slugify s
  = replace_runs is_hyphen (lit "-")
      (replace_runs isWhiteSpace (lit "-")
         (replace_class not_slug_char [] (map ascii_lower (trim s)))).
Proof.
  intros Ha. unfold slugify.
  rewrite (normalize_ascii NFKD s Ha).
  rewrite (replace_class_none is_combining_mark [] s).
  2:{ revert Ha. apply forallb_impl. intros c Hc. char_lia. }
  rewrite (toLowerCase_ascii (trim s)) by (apply forallb_trim, Ha).
  reflexivity.
Qed.

Lemma dropWhile_map q (f : code_unit -> code_unit) s :
  (forall c, q (f c) = q c) ->
  dropWhile q (map f s) = map f (dropWhile q s).
Proof.
  intros Hq. induction s as [|c s IH]; simpl; [reflexivity|].
  rewrite Hq. destruct (q c); [exact IH|reflexivity].
Qed.

Lemma trim_map (f : code_unit -> code_unit) s :
  (forall c, isWhiteSpace (f c) = isWhiteSpace c) ->
  trim (map f s) = map f (trim s).
Proof.
  intros Hf. unfold trim, trimEnd, trimStart.
  rewrite dropWhile_map, <- map_rev, dropWhile_map, map_rev by exact Hf.
  reflexivity.
Qed.

Lemma ascii_lower_space c : isWhiteSpace (ascii_lower c) = isWhiteSpace c.
Proof.
  unfold ascii_lower. destruct (is_upper c) eqn:Hu; [|reflexivity].
  assert (isWhiteSpace c = false) as -> by char_lia. char_lia.
Qed.

Lemma ascii_lower_ascii c : is_ascii c = true -> is_ascii (ascii_lower c) = true.
Proof. intros H. char_lia. Qed.

Lemma ascii_lower_twice c : ascii_lower (ascii_lower c) = ascii_lower c.
Proof.
  unfold ascii_lower at 2 3. destruct (is_upper c) eqn:Hu; char_lia.
Qed.

Lemma slugify_ascii_lower s :
  forallb is_ascii s = true -> slugify (map ascii_lower s) = slugify s.
Proof.
  intros Ha. rewrite (slugify_ascii s Ha), slugify_ascii.
  - rewrite trim_map by apply ascii_lower_space.
    rewrite map_map. do 3 f_equal. apply map_ext, ascii_lower_twice.
  - rewrite forallb_forall in *. intros c (d & <- & Hd)%in_map_iff.
    apply ascii_lower_ascii, Ha, Hd.
Qed.

(** X17. Two texts of Basic Latin that differ only in the case of their
    letters have the same slug. *)
Theorem slugify_ignores_ascii_case s t :
  forallb is_ascii s = true -> forallb is_ascii t = true ->
  map ascii_lower s = map ascii_lower t ->
  slugify s = slugify t.
Proof.
  intros Hs Ht Heq.
  rewrite <- (slugify_ascii_lower s Hs), <- (slugify_ascii_lower t Ht), Heq.
  reflexivity.
Qed.

Lemma replace_class_nil_iff cls t :
  replace_class cls [] t = [] <-> forallb cls t = true.
Proof.
  induction t as [|c t IH]; simpl; [split; reflexivity|].
  destruct (cls c); simpl; [exact IH|split; discriminate].
Qed.

Lemma replace_runs_nil_iff cls h t :
  replace_runs cls [h] t = [] <-> t = [].
Proof.
  unfold replace_runs. destruct t as [|c t]; [split; reflexivity|].
  cbn [replace_runs_from]. destruct (cls c); split; discriminate.
Qed.

Lemma not_slug_char_lower c : not_slug_char (ascii_lower c) = has_no_slug c.
Proof.
  unfold has_no_slug, is_ascii_alnum, is_ascii_letter, ascii_lower.
  destruct (is_upper c) eqn:Hu.
  - assert (is_lower (c + 0x20) = true) as Hl by char_lia.
    unfold not_slug_char. rewrite Hl. reflexivity.
  - reflexivity.
Qed.

(** X18. The slug of a text of Basic Latin is empty exactly when the
    trimmed text has no letter, no digit, no space and no hyphen. *)
Theorem slugify_empty_iff s :
  forallb is_ascii s = true ->
  (slugify s = [] <-> forallb has_no_slug (trim s) = true).
Proof.
  intros Ha. rewrite (slugify_ascii s Ha).
  change (lit "-") with [0x2D].
  rewrite !replace_runs_nil_iff, replace_class_nil_iff.
  induction (trim s) as [|c t IH]; simpl; [reflexivity|].
  rewrite not_slug_char_lower, !andb_true_iff, IH. reflexivity.
Qed.

Lemma filter_dropWhile p q s :
  (forall c, q c = true -> p c = false) ->
  List.filter p (dropWhile q s) = List.filter p s.
Proof.
  intros Hq. induction s as [|c s IH]; simpl; [reflexivity|].
  destruct (q c) eqn:Hc; [|reflexivity]. rewrite (Hq c Hc). exact IH.
Qed.

Lemma filter_rev_list p s : List.filter p (rev s) = rev (List.filter p s).
Proof.
  induction s as [|c s IH]; simpl; [reflexivity|].
  rewrite List.filter_app, IH. simpl. destruct (p c); simpl;
    [reflexivity|apply app_nil_r].
Qed.

Lemma filter_trim p s :
  (forall c, isWhiteSpace c = true -> p c = false) ->
  List.filter p (trim s) = List.filter p s.
Proof.
  intros Hp. unfold trim, trimEnd, trimStart.
  rewrite filter_rev_list, filter_dropWhile, filter_rev_list, rev_involutive
    by exact Hp.
  apply filter_dropWhile, Hp.
Qed.

Lemma filter_replace_class p cls t :
  (forall c, cls c = true -> p c = false) ->
  List.filter p (replace_class cls [] t) = List.filter p t.
Proof.
  intros Hc. induction t as [|c t IH]; simpl; [reflexivity|].
  destruct (cls c) eqn:Hcls; simpl; [rewrite (Hc c Hcls)|rewrite IH];
    auto.
Qed.

Lemma filter_replace_runs p b cls r t :
  (forall c, cls c = true -> p c = false) -> List.filter p r = [] ->
  List.filter p (replace_runs_from b cls r t) = List.filter p t.
Proof.
  intros Hc Hr. revert b.
  induction t as [|c t IH]; intros b; cbn [replace_runs_from];
    [reflexivity|].
  destruct (cls c) eqn:Hcls.
  - rewrite List.filter_app, IH. cbn [List.filter]. rewrite (Hc c Hcls).
    destruct b; [reflexivity|]. rewrite Hr. reflexivity.
  - cbn [List.filter]. rewrite IH. reflexivity.
Qed.

(** X19. The slug of a text of Basic Latin has the letters and digits of
    the text, lowercased, in their order, none lost and none added. *)
Theorem slugify_keeps_letters_and_digits s :
  forallb is_ascii s = true ->
  List.filter (fun c => is_lower c || is_digit c) (slugify s)
  = map ascii_lower (List.filter is_ascii_alnum s).
Proof.
  intros Ha. rewrite (slugify_ascii s Ha). unfold replace_runs.
  rewrite filter_replace_runs; [|intros c Hc; char_lia|reflexivity].
  rewrite filter_replace_runs; [|intros c Hc; char_lia|reflexivity].
  rewrite filter_replace_class by (intros c Hc; char_lia).
  rewrite <- (filter_trim is_ascii_alnum s).
  2:{ intros c Hc. unfold is_ascii_alnum, is_ascii_letter. char_lia. }
  induction (trim s) as [|c t IH]; simpl; [reflexivity|].
  assert (is_lower (ascii_lower c) || is_digit (ascii_lower c)
          = is_ascii_alnum c) as ->.
  { unfold is_ascii_alnum, is_ascii_letter, ascii_lower.
    destruct (is_upper c) eqn:Hu; [|reflexivity].
    assert (is_lower (c + 0x20) = true) as -> by char_lia. reflexivity. }
  destruct (is_ascii_alnum c); simpl; rewrite IH; reflexivity.
Qed.

End AsciiSlug.

Lemma slugify_ignores_ascii_case_witness :
  slugify (U := latin1) (lit "Hello World")
  = slugify (U := latin1) (lit "hELLO wORLD").
Proof.
  apply (@slugify_ignores_ascii_case latin1 latin1_laws); reflexivity.
Defined.

Lemma slugify_empty_iff_witness :
  slugify (U := latin1) (lit " (?!) ") = []
  <-> forallb has_no_slug (trim (lit " (?!) ")) = true.
Proof.
  apply (@slugify_empty_iff latin1 latin1_laws). reflexivity.
Defined.

Lemma slugify_keeps_letters_and_digits_witness :
  List.filter (fun c => is_lower c || is_digit c)
    (slugify (U := latin1) (lit "Chapter 12: The End!"))
  = map ascii_lower (List.filter is_ascii_alnum (lit "Chapter 12: The End!")).
Proof.
  apply (@slugify_keeps_letters_and_digits latin1 latin1_laws). reflexivity.
Defined.

(** ** More on heading extraction *)

Section HeadingExtras.

Local Open Scope N_scope.

Implicit Types (lines : list jsstring) (s p : jsstring).

Lemma startsWith_app s p :
  startsWith s p = true -> s = p ++ drop (length p) s.
Proof.
  revert s. induction p as [|a p IH]; intros s; simpl; [reflexivity|].
  destruct s as [|c s]; [discriminate|].
  intros [Hc Hs]%andb_true_iff. apply N.eqb_eq in Hc. subst c.
  simpl. f_equal. auto.
Qed.

(** X20. Bounds of heading extraction: the body start is 0 or at least 2,
    and never past the end; a heading found from a start line is at a
    line of the document at or after the start; the line it is at is
    "# " followed by the text for a prefix heading and the text itself
    for an underlined one; from a start line at or past the end nothing
    is found. *)
Theorem heading_extraction_bounds lines (start : nat) :
  (findNoteStart lines = 0%nat
   \/ (2 <= findNoteStart lines <= length lines)%nat)
  /\ (forall h, findHeading lines start = Some h ->
        (start <= lineNumber h < length lines)%nat
        /\ exists line, lines !! lineNumber h = Some line
             /\ ((style h = Prefix /\ line = lit "# " ++ text h)
                 \/ (style h = Underline /\ line = text h)))
  /\ ((length lines <= start)%nat -> findHeading lines start = None).
Proof.
  split; [|split].
  - pose proof (findNoteStart_le lines) as Hle.
    destruct (findNoteStart_spec lines)
      as [(_ & j & Hj & _ & _ & Hs)|[_ Hs]]; [right; lia|left; exact Hs].
  - intros h Hh. unfold findHeading in Hh.
    pose proof (findHeading_loop_spec lines (length lines - start) start) as H.
    rewrite Hh in H. destruct H as (Hr & (line & Hl & Hat) & _).
    split; [apply lookup_lt_Some in Hl; lia|].
    exists line. split; [exact Hl|].
    destruct Hat as [[Hp ->]|(Hp & _ & ->)].
    + left. split; [reflexivity|]. apply (startsWith_app line (lit "# ") Hp).
    + right. split; reflexivity.
  - intros Hge. unfold findHeading.
    replace (length lines - start)%nat with 0%nat by lia. reflexivity.
Qed.

Lemma equals_run_not_CR s :
  is_equals_run s = true -> empty_or_ends_with_CR s = false.
Proof.
  unfold is_equals_run, empty_or_ends_with_CR.
  destruct s as [|c s]; [discriminate|]. intros Hall.
  rewrite <- forallb_rev in Hall.
  destruct (rev (c :: s)) as [|d r] eqn:Hr.
  - apply (f_equal (@length N)) in Hr. rewrite length_rev in Hr.
    discriminate.
  - cbn [forallb] in Hall. apply andb_true_iff in Hall as [Hd _].
    apply N.eqb_eq in Hd. subst d. reflexivity.
Qed.

(** X21. In a document with Windows line endings (every line empty or
    ending with a carriage return) no underlined heading is found: a
    heading that is found is a prefix heading. *)
Theorem crlf_document_has_no_underlined_heading lines (start : nat)
    (h : LinePointer) :
  forallb empty_or_ends_with_CR lines = true ->
  findHeading lines start = Some h ->
  style h = Prefix.
Proof.
  intros Hcr Hh. unfold findHeading in Hh.
  pose proof (findHeading_loop_spec lines (length lines - start) start) as H.
  rewrite Hh in H. destruct H as (_ & (line & _ & Hat) & _).
  destruct Hat as [[_ ->]|(_ & (next & Hn & He) & _)]; [reflexivity|].
  apply equals_run_not_CR in He.
  rewrite forallb_forall in Hcr.
  rewrite Hcr in He; [discriminate|].
  apply list_elem_of_In, list_elem_of_lookup. eauto.
Qed.

End HeadingExtras.

Lemma crlf_document_has_no_underlined_heading_witness :
  let lines := split 0x0A%N crlf_underlined in
  let h := {| lineNumber := 2; text := lit "World" ++ [0x0D%N];
              style := Prefix |} in
  forallb empty_or_ends_with_CR lines = true
  /\ findHeading lines (findNoteStart lines) = Some h
  /\ style h = Prefix.
Proof.
  intros lines h. split; [reflexivity|]. split; [reflexivity|].
  apply (crlf_document_has_no_underlined_heading lines (findNoteStart lines) h);
    reflexivity.
Defined.

Example crlf_heading_is_slugged :
  renames (events (forceRenameFile (U := latin1) (host crlf_underlined true)
                     untitled loaded))
  = [(untitled, lit "notes/world.md", true)].
Proof. vm_compute. reflexivity. Qed.
